(** * Eight Sleep thermostat accessory: a shallow embedding of
      [src/platformAccessory.ts] and the properties of its reconciler.

    JavaScript numbers are IEEE-754 binary64 values, i.e. Rocq's primitive
    [float]; the comparison operators of the source are the primitive
    comparisons ([===] is [eqb], [<] is [ltb], [<=] is [leb]). *)

From Stdlib Require Import ZArith List Bool String Lia Permutation.
From Stdlib Require Import Floats.
Import ListNotations.

Set Warnings "-inexact-float".
Local Open Scope float_scope.

(** * The program *)

(** ** JavaScript numbers *)

Module Js.

Definition number := float.

(** [a === b] and [a !== b] on numbers. *)
Definition strict_eq (a b : number) : bool := a =? b.
Definition strict_neq (a b : number) : bool := negb (a =? b).

(** [a > b] is [b < a]. *)
Definition gt (a b : number) : bool := b <? a.

(** [!n] on a number: the falsy numbers are [0], [-0] and [NaN]. *)
Definition falsy (n : number) : bool := (n =? 0) || is_nan n.

(** [Math.abs]. *)
Definition Math_abs (n : number) : number := abs n.

(** A number that is neither [NaN] nor an infinity. *)
Definition finite (n : number) : Prop := is_finite n = true.

End Js.

(** ** The temperature mapper interface

    [twoWayTempMapper.ts] is imported by the accessory but is not part of the
    sources at hand: the accessory is verified against the interface, for
    every mapper. *)

Record TwoWayTempMapper : Type := {
  levelToCelsius : Js.number -> Js.number;
  celsiusToLevel : Js.number -> Js.number;
  formatCelsius : Js.number -> Js.number
}.

(** ** HomeKit values *)

(** [Characteristic.CurrentHeatingCoolingState.{OFF,HEAT,COOL}]. *)
Inductive CurrentHeatingCoolingStateValue : Type := OFF | HEAT | COOL.

(** [HAPStatus], as far as the accessory uses it. *)
Inductive HAPStatus : Type := SERVICE_COMMUNICATION_FAILURE.

Inductive Side : Type := left | right.

(** ** The accessory's record [Thermostat_data] *)

Record Thermostat_data : Type := {
  CurrentHeatingCoolingState : CurrentHeatingCoolingStateValue;
  TargetHeatingCoolingState : Js.number;
  CurrentTemperature : Js.number;
  TargetTemperature : Js.number;
  TemperatureDisplayUnits : Js.number
}.

(** The initial value of the field in the class body. *)
Definition initial_data : Thermostat_data := {|
  CurrentHeatingCoolingState := OFF;
  TargetHeatingCoolingState := 0;
  CurrentTemperature := 0;
  TargetTemperature := 0;
  TemperatureDisplayUnits := 1
|}.

Definition set_CurrentHeatingCoolingState (v : CurrentHeatingCoolingStateValue)
  (d : Thermostat_data) : Thermostat_data :=
  {| CurrentHeatingCoolingState := v;
     TargetHeatingCoolingState := TargetHeatingCoolingState d;
     CurrentTemperature := CurrentTemperature d;
     TargetTemperature := TargetTemperature d;
     TemperatureDisplayUnits := TemperatureDisplayUnits d |}.

Definition set_TargetHeatingCoolingState (v : Js.number)
  (d : Thermostat_data) : Thermostat_data :=
  {| CurrentHeatingCoolingState := CurrentHeatingCoolingState d;
     TargetHeatingCoolingState := v;
     CurrentTemperature := CurrentTemperature d;
     TargetTemperature := TargetTemperature d;
     TemperatureDisplayUnits := TemperatureDisplayUnits d |}.

Definition set_CurrentTemperature (v : Js.number)
  (d : Thermostat_data) : Thermostat_data :=
  {| CurrentHeatingCoolingState := CurrentHeatingCoolingState d;
     TargetHeatingCoolingState := TargetHeatingCoolingState d;
     CurrentTemperature := v;
     TargetTemperature := TargetTemperature d;
     TemperatureDisplayUnits := TemperatureDisplayUnits d |}.

Definition set_TargetTemperature (v : Js.number)
  (d : Thermostat_data) : Thermostat_data :=
  {| CurrentHeatingCoolingState := CurrentHeatingCoolingState d;
     TargetHeatingCoolingState := TargetHeatingCoolingState d;
     CurrentTemperature := CurrentTemperature d;
     TargetTemperature := v;
     TemperatureDisplayUnits := TemperatureDisplayUnits d |}.

Definition set_TemperatureDisplayUnits (v : Js.number)
  (d : Thermostat_data) : Thermostat_data :=
  {| CurrentHeatingCoolingState := CurrentHeatingCoolingState d;
     TargetHeatingCoolingState := TargetHeatingCoolingState d;
     CurrentTemperature := CurrentTemperature d;
     TargetTemperature := TargetTemperature d;
     TemperatureDisplayUnits := v |}.

(** ** Pure parts of the reconciler *)

(** [tempsAreEqual(current, target)]. *)
Definition tempsAreEqual (current target : Js.number) : bool :=
  let diff := Js.Math_abs (target - current) in
  diff <=? 0.55.

(** The assignment made by [triggerCurrentHeatingCoolingStateUpdate]: the
    [if / else if / else if] chain of the source has no final [else], so the
    cached value [old] stays when no branch is taken. *)
Definition nextCurrentState (old : CurrentHeatingCoolingStateValue)
  (currTemp targetTemp targetState : Js.number) : CurrentHeatingCoolingStateValue :=
  if tempsAreEqual currTemp targetTemp || Js.strict_eq targetState 0 then OFF
  else if currTemp <? targetTemp then HEAT
  else if Js.gt currTemp targetTemp then COOL
  else old.

(** The derivation as the specification words it: OFF first for the OFF target
    mode, then the tolerance band, then HEAT, and COOL otherwise. *)
Definition toleranceC : Js.number := 0.55.

Definition deriveCurrentMode_spec (currentTemperatureC targetTemperatureC targetMode : Js.number)
  : CurrentHeatingCoolingStateValue :=
  if targetMode =? 0 then OFF
  else if abs (targetTemperatureC - currentTemperatureC) <=? toleranceC then OFF
  else if currentTemperatureC <? targetTemperatureC then HEAT
  else COOL.


(** ** Effects of the accessory

    A handler reads and writes [Thermostat_data], calls the two client
    adapters, logs, pushes characteristic updates, and may throw a
    [HapStatusError]. A run starts from the record and yields how the call
    completed, the record it left, and the effects in the order they were
    performed. Assignments made before a throw stay, as in JavaScript. The
    awaited remote calls are taken to resolve; what they resolve to is given
    by a [Remote] record. *)

Inductive LogLevel : Type := debug | warn | error.

Inductive LogArg : Type :=
| Num (n : Js.number)
| Str (s : string)
| Mode (m : CurrentHeatingCoolingStateValue).

Inductive Event : Type :=
| Call_currentLevelForSide (side : Side)
| Call_accessoryIsOn
| Call_userTargetLevel
| Call_updateUserTargetLevel (level : Js.number)
| Call_turnOnAccessory
| Call_turnOffAccessory
| Log (lvl : LogLevel) (message : string) (args : list LogArg)
| UpdateCharacteristic (value : CurrentHeatingCoolingStateValue).

Inductive Completion (A : Type) : Type :=
| Normal (a : A)
| Throw (e : HAPStatus).
Arguments Normal {A} a.
Arguments Throw {A} e.

Record Run (A : Type) : Type := mkRun {
  completion : Completion A;
  data : Thermostat_data;
  events : list Event
}.
Arguments mkRun {A} _ _ _.
Arguments completion {A} _.
Arguments data {A} _.
Arguments events {A} _.

Definition M (A : Type) : Type := Thermostat_data -> Run A.

Definition ret {A : Type} (a : A) : M A := fun d => mkRun (Normal a) d [].

Definition bind {A B : Type} (m : M A) (k : A -> M B) : M B :=
  fun d =>
    let r := m d in
    match completion r with
    | Normal a =>
        let r' := k a (data r) in
        mkRun (completion r') (data r') (events r ++ events r')
    | Throw e => mkRun (Throw e) (data r) (events r)
    end.

Definition throw {A : Type} (e : HAPStatus) : M A := fun d => mkRun (Throw e) d [].
Definition read : M Thermostat_data := fun d => mkRun (Normal d) d [].
Definition assign (f : Thermostat_data -> Thermostat_data) : M unit :=
  fun d => mkRun (Normal tt) (f d) [].
Definition emit (e : Event) : M unit := fun d => mkRun (Normal tt) d [e].

Declare Scope accessory_scope.
Delimit Scope accessory_scope with acc.
Notation "x <- m ;; k" := (bind m (fun x => k))
  (at level 61, m at next level, right associativity) : accessory_scope.
Notation "m ;; k" := (bind m (fun _ => k))
  (at level 61, right associativity) : accessory_scope.
Local Open Scope accessory_scope.

(** What the remote device answers during one handler call:
    [platformClient.currentLevelForSide], and [accessoryClient.accessoryIsOn],
    [userTargetLevel] and [updateUserTargetLevel] (the level it committed). *)
Record Remote : Type := {
  currentLevelForSide : Side -> Js.number;
  accessoryIsOn : bool;
  userTargetLevel : Js.number;
  updateUserTargetLevel : Js.number -> Js.number
}.

(** The three fetches that [fetchCurrentState] hands to [Promise.all]. *)
Inductive Fetch : Type := FetchCurrentTemp | FetchTargetState | FetchTargetTemp.

(** The source order of the array given to [Promise.all]. *)
Definition source_order : list Fetch := [FetchCurrentTemp; FetchTargetState; FetchTargetTemp].

Definition mismatch_message : string := "Local/remote temp mismatch.".

Section Accessory.

Variable tempMapper : TwoWayTempMapper.
Variable remote : Remote.
Variable deviceSide : Side.
Variable userIdForSide : string.
Variable isNotResponding : bool.

(** [fetchCurrentTemp]: the call is issued when the function is entered; the
    rest runs when the awaited level arrives. *)
Definition fetchCurrentTemp_call : M unit := emit (Call_currentLevelForSide deviceSide).

Definition fetchCurrentTemp_resume : M Js.number :=
  let currentMeasuredLevel := currentLevelForSide remote deviceSide in
  let currentC := levelToCelsius tempMapper currentMeasuredLevel in
  assign (set_CurrentTemperature currentC) ;;
  ret currentC.

Definition fetchCurrentTemp : M Js.number :=
  fetchCurrentTemp_call ;; fetchCurrentTemp_resume.

(** [fetchTargetState]. *)
Definition fetchTargetState_call : M unit := emit Call_accessoryIsOn.

Definition fetchTargetState_resume : M Js.number :=
  let targetState := if accessoryIsOn remote then 3 else 0 in
  assign (set_TargetHeatingCoolingState targetState) ;;
  ret targetState.

Definition fetchTargetState : M Js.number :=
  fetchTargetState_call ;; fetchTargetState_resume.

(** [fetchTargetTemp]. *)
Definition fetchTargetTemp_call : M unit := emit Call_userTargetLevel.

Definition fetchTargetTemp_resume : M Js.number :=
  let targetLevel := userTargetLevel remote in
  let targetC := levelToCelsius tempMapper targetLevel in
  assign (set_TargetTemperature targetC) ;;
  ret targetC.

Definition fetchTargetTemp : M Js.number :=
  fetchTargetTemp_call ;; fetchTargetTemp_resume.

(** [triggerCurrentHeatingCoolingStateUpdate]. *)
Definition triggerCurrentHeatingCoolingStateUpdate : M CurrentHeatingCoolingStateValue :=
  d <- read ;;
  let currTemp := CurrentTemperature d in
  let targetTemp := TargetTemperature d in
  assign (set_CurrentHeatingCoolingState
            (nextCurrentState (CurrentHeatingCoolingState d) currTemp targetTemp
               (TargetHeatingCoolingState d))) ;;
  d' <- read ;;
  emit (UpdateCharacteristic (CurrentHeatingCoolingState d')) ;;
  emit (Log debug "Update CurrentState:" [Mode (CurrentHeatingCoolingState d')]) ;;
  ret (CurrentHeatingCoolingState d').

(** [Promise.all] over the three fetches: all three calls are issued, in the
    order of the array, before any answer is awaited; the continuations then
    run one at a time in the order [schedule] in which the answers arrive. *)
Definition resume (f : Fetch) : M unit :=
  match f with
  | FetchCurrentTemp => fetchCurrentTemp_resume ;; ret tt
  | FetchTargetState => fetchTargetState_resume ;; ret tt
  | FetchTargetTemp => fetchTargetTemp_resume ;; ret tt
  end.

Fixpoint resume_all (schedule : list Fetch) : M unit :=
  match schedule with
  | [] => ret tt
  | f :: rest => resume f ;; resume_all rest
  end.

(** [fetchCurrentState]. *)
Definition fetchCurrentState (schedule : list Fetch) : M CurrentHeatingCoolingStateValue :=
  fetchCurrentTemp_call ;;
  fetchTargetState_call ;;
  fetchTargetTemp_call ;;
  resume_all schedule ;;
  currStateValue <- triggerCurrentHeatingCoolingStateUpdate ;;
  ret currStateValue.

(** [updateTargetTemperature]. *)
Definition updateTargetTemperature (newValue : Js.number) : M Js.number :=
  let targetC := formatCelsius tempMapper newValue in
  let targetLevel := celsiusToLevel tempMapper targetC in
  if Js.falsy targetLevel || Js.gt targetLevel 100 || (targetLevel <? -100) then
    emit (Log error "Something went wrong calculating new bed temp:" [Num targetLevel]) ;;
    ret targetC
  else
    emit (Call_updateUserTargetLevel targetLevel) ;;
    let clientTargetLevel := updateUserTargetLevel remote targetLevel in
    let clientTargetC := levelToCelsius tempMapper clientTargetLevel in
    assign (set_TargetTemperature clientTargetC) ;;
    (if Js.strict_neq targetC clientTargetC || Js.strict_neq targetLevel clientTargetLevel then
       emit (Log error mismatch_message
               [Num targetC; Num targetLevel; Num clientTargetC; Num clientTargetLevel])
     else ret tt) ;;
    ret clientTargetC.

(** [updateDeviceState]: an async function without [await], so its body has
    run when the call returns. *)
Definition updateDeviceState (newValue : Js.number) : M unit :=
  if Js.strict_eq newValue 3 then
    emit (Log warn "Turning on device ->" [Str userIdForSide]) ;;
    emit Call_turnOnAccessory
  else if Js.strict_eq newValue 0 then
    emit Call_turnOffAccessory ;;
    emit (Log warn "Turning off device ->" [Str userIdForSide])
  else ret tt.

(** [ensureDeviceResponsiveness]. *)
Definition ensureDeviceResponsiveness : M unit :=
  if isNotResponding then throw SERVICE_COMMUNICATION_FAILURE else ret tt.

(** *** The characteristic handlers *)

Definition handleCurrentHeatingCoolingStateGet (schedule : list Fetch)
  : M CurrentHeatingCoolingStateValue :=
  ensureDeviceResponsiveness ;;
  currentState <- fetchCurrentState schedule ;;
  emit (Log debug "GET CurrentHeatingCoolingState" [Mode currentState]) ;;
  ret currentState.

Definition handleCurrentTemperatureGet : M Js.number :=
  ensureDeviceResponsiveness ;;
  currTemp <- fetchCurrentTemp ;;
  emit (Log debug "GET CurrentTemperature" [Num currTemp]) ;;
  ret currTemp.

Definition handleTargetTemperatureGet : M Js.number :=
  ensureDeviceResponsiveness ;;
  targetTemp <- fetchTargetTemp ;;
  emit (Log debug "GET TargetTemperature" [Num targetTemp]) ;;
  ret targetTemp.

Definition handleTargetTemperatureSet (value : Js.number) : M unit :=
  ensureDeviceResponsiveness ;;
  newTemp <- updateTargetTemperature value ;;
  emit (Log debug "SET TargetTemperature:" [Num newTemp]) ;;
  triggerCurrentHeatingCoolingStateUpdate ;;
  ret tt.

Definition handleTargetHeatingCoolingStateGet : M Js.number :=
  ensureDeviceResponsiveness ;;
  targetState <- fetchTargetState ;;
  emit (Log debug "GET TargetHeatingCoolingState" [Num targetState]) ;;
  ret targetState.

Definition handleTargetHeatingCoolingStateSet (value : Js.number) : M unit :=
  ensureDeviceResponsiveness ;;
  d <- read ;;
  (if Js.strict_neq (TargetHeatingCoolingState d) value then updateDeviceState value
   else ret tt) ;;
  assign (set_TargetHeatingCoolingState value) ;;
  emit (Log debug "SET TargetHeatingCoolingState:" [Num value]) ;;
  triggerCurrentHeatingCoolingStateUpdate ;;
  ret tt.

Definition handleTemperatureDisplayUnitsGet : M Js.number :=
  ensureDeviceResponsiveness ;;
  d <- read ;;
  let tempUnits := TemperatureDisplayUnits d in
  emit (Log debug "GET TemperatureDisplayUnits" [Num tempUnits]) ;;
  ret tempUnits.

Definition handleTemperatureDisplayUnitsSet (value : Js.number) : M unit :=
  ensureDeviceResponsiveness ;;
  assign (set_TemperatureDisplayUnits value) ;;
  emit (Log debug "SET TemperatureDisplayUnits:" [Num value]).

End Accessory.

(** ** The characteristic bindings made by the constructor

    [onGet] and [onSet] bind one handler to each request that HomeKit can
    send; a get of the current state also carries the order in which the
    three remote answers of that call arrive. *)

Inductive Request : Type :=
| CurrentHeatingCoolingState_onGet (schedule : list Fetch)
| TargetHeatingCoolingState_onSet (value : Js.number)
| TargetHeatingCoolingState_onGet
| CurrentTemperature_onGet
| TargetTemperature_onSet (value : Js.number)
| TargetTemperature_onGet
| TemperatureDisplayUnits_onSet (value : Js.number)
| TemperatureDisplayUnits_onGet.

(** What a handler hands back to HomeKit. *)
Inductive Reply : Type :=
| reply_state (m : CurrentHeatingCoolingStateValue)
| reply_number (n : Js.number)
| reply_void.

Section Bindings.

Variable tempMapper : TwoWayTempMapper.
Variable deviceSide : Side.
Variable userIdForSide : string.
Variable isNotResponding : bool.

Definition handle (remote : Remote) (req : Request) : M Reply :=
  match req with
  | CurrentHeatingCoolingState_onGet schedule =>
      v <- handleCurrentHeatingCoolingStateGet tempMapper remote deviceSide isNotResponding schedule ;;
      ret (reply_state v)
  | TargetHeatingCoolingState_onSet value =>
      handleTargetHeatingCoolingStateSet userIdForSide isNotResponding value ;;
      ret reply_void
  | TargetHeatingCoolingState_onGet =>
      v <- handleTargetHeatingCoolingStateGet remote isNotResponding ;;
      ret (reply_number v)
  | CurrentTemperature_onGet =>
      v <- handleCurrentTemperatureGet tempMapper remote deviceSide isNotResponding ;;
      ret (reply_number v)
  | TargetTemperature_onSet value =>
      handleTargetTemperatureSet tempMapper remote isNotResponding value ;;
      ret reply_void
  | TargetTemperature_onGet =>
      v <- handleTargetTemperatureGet tempMapper remote isNotResponding ;;
      ret (reply_number v)
  | TemperatureDisplayUnits_onSet value =>
      handleTemperatureDisplayUnitsSet isNotResponding value ;;
      ret reply_void
  | TemperatureDisplayUnits_onGet =>
      v <- handleTemperatureDisplayUnitsGet isNotResponding ;;
      ret (reply_number v)
  end.

(** The records an accessory can hold: the initial one, and the one left by
    any handler call, whatever the remote device answered during it. *)
Inductive reachable : Thermostat_data -> Prop :=
| reachable_initial : reachable initial_data
| reachable_handle (remote : Remote) (req : Request) (d : Thermostat_data) :
    reachable d -> reachable (data (handle remote req d)).

End Bindings.

(** The handlers that end with [triggerCurrentHeatingCoolingStateUpdate]. *)
Definition recomputes (req : Request) : bool :=
  match req with
  | CurrentHeatingCoolingState_onGet _
  | TargetHeatingCoolingState_onSet _
  | TargetTemperature_onSet _ => true
  | _ => false
  end.

(** ** Observations on the effects of a run *)

Definition is_remote_call (e : Event) : bool :=
  match e with
  | Log _ _ _ | UpdateCharacteristic _ => false
  | _ => true
  end.

Definition is_power_command (e : Event) : bool :=
  match e with
  | Call_turnOnAccessory | Call_turnOffAccessory => true
  | _ => false
  end.

Definition is_error_log (e : Event) : bool :=
  match e with
  | Log error _ _ => true
  | _ => false
  end.

Definition is_mismatch_log (e : Event) : bool :=
  match e with
  | Log error message _ => String.eqb message mismatch_message
  | _ => false
  end.

Definition remote_calls (es : list Event) : list Event := filter is_remote_call es.
Definition power_commands (es : list Event) : list Event := filter is_power_command es.
Definition mismatch_logs (es : list Event) : list Event := filter is_mismatch_log es.
Definition error_logs (es : list Event) : list Event := filter is_error_log es.

(** The guard of [updateTargetTemperature] on the level computed from a
    request, and the range check that the guard is meant to be. *)
Definition level_rejected (targetLevel : Js.number) : bool :=
  Js.falsy targetLevel || Js.gt targetLevel 100 || (targetLevel <? -100).

Definition level_in_range (targetLevel : Js.number) : bool :=
  (-100 <=? targetLevel) && (targetLevel <=? 100).

(** ** Sample collaborators, to run the accessory on concrete inputs

    The bounds [minTempC] and [maxTempC] are the accessory's own. The sample
    mapper is one implementation of the interface, not the repository's: a
    linear scale with level [-100] at 10 degrees and level [100] at 45
    degrees, whose [formatCelsius] clamps into [minTempC, maxTempC]. The
    properties below hold for every mapper; the sample only instantiates them
    and carries the concrete runs. *)

Definition minTempC : Js.number := 10.
Definition maxTempC : Js.number := 45.1.

(** Nearest integer of a number of magnitude below [2^51]. *)
Definition nearest_integer (x : Js.number) : Js.number :=
  (x + 6755399441055744) - 6755399441055744.

Definition sampleMapper : TwoWayTempMapper := {|
  levelToCelsius := fun level => 27.5 + level * 0.175;
  celsiusToLevel := fun tempC => nearest_integer ((tempC - 27.5) / 0.175);
  formatCelsius := fun raw =>
    if raw <? minTempC then minTempC
    else if maxTempC <? raw then maxTempC
    else raw
|}.

(** A remote device that commits the level it is asked for. *)
Definition obedientRemote : Remote := {|
  currentLevelForSide := fun _ => 0;
  accessoryIsOn := true;
  userTargetLevel := 20;
  updateUserTargetLevel := fun level => level
|}.

(** A remote device that commits a level one unit above the requested one. *)
Definition driftingRemote : Remote := {|
  currentLevelForSide := fun _ => 0;
  accessoryIsOn := true;
  userTargetLevel := 20;
  updateUserTargetLevel := fun level => level + 1
|}.

(** A remote device whose side has warmed up to level 40. *)
Definition warmedRemote : Remote := {|
  currentLevelForSide := fun _ => 40;
  accessoryIsOn := true;
  userTargetLevel := 20;
  updateUserTargetLevel := fun level => level
|}.

(** The scenario of the specification: AUTO, 18 degrees measured, 24 wanted. *)
Definition heating_data : Thermostat_data := {|
  CurrentHeatingCoolingState := OFF;
  TargetHeatingCoolingState := 3;
  CurrentTemperature := 18;
  TargetTemperature := 24;
  TemperatureDisplayUnits := 1
|}.

(** The record left by a successful write of 20 degrees through
    [sampleMapper] to [obedientRemote]: level -43, stored as 19.975. *)
Definition data_after_set_20 : Thermostat_data :=
  data (handleTargetTemperatureSet sampleMapper obedientRemote false 20 initial_data).

(** ** Further observations on the effects of a run *)

(** The remote calls that change the device: a new target level, power on,
    power off. *)
Definition is_device_write (e : Event) : bool :=
  match e with
  | Call_updateUserTargetLevel _ | Call_turnOnAccessory | Call_turnOffAccessory => true
  | _ => false
  end.

Definition device_writes (es : list Event) : list Event := filter is_device_write es.

(** The levels sent to the remote device, and the sides whose measured level
    was asked for. *)
Definition levels_sent (es : list Event) : list Js.number :=
  flat_map (fun e => match e with
                     | Call_updateUserTargetLevel level => [level]
                     | _ => []
                     end) es.

Definition sides_asked (es : list Event) : list Side :=
  flat_map (fun e => match e with
                     | Call_currentLevelForSide side => [side]
                     | _ => []
                     end) es.

(** The requests bound with [onGet]. *)
Definition is_get (req : Request) : bool :=
  match req with
  | CurrentHeatingCoolingState_onGet _
  | TargetHeatingCoolingState_onGet
  | CurrentTemperature_onGet
  | TargetTemperature_onGet
  | TemperatureDisplayUnits_onGet => true
  | _ => false
  end.

(** The requests whose handler, or a function it calls, has an assignment to
    the given field of [Thermostat_data]. *)
Definition assigns_CurrentTemperature (req : Request) : bool :=
  match req with
  | CurrentHeatingCoolingState_onGet _ | CurrentTemperature_onGet => true
  | _ => false
  end.

Definition assigns_TargetTemperature (req : Request) : bool :=
  match req with
  | CurrentHeatingCoolingState_onGet _ | TargetTemperature_onGet
  | TargetTemperature_onSet _ => true
  | _ => false
  end.

Definition assigns_TargetHeatingCoolingState (req : Request) : bool :=
  match req with
  | CurrentHeatingCoolingState_onGet _ | TargetHeatingCoolingState_onGet
  | TargetHeatingCoolingState_onSet _ => true
  | _ => false
  end.

Definition assigns_TemperatureDisplayUnits (req : Request) : bool :=
  match req with
  | TemperatureDisplayUnits_onSet _ => true
  | _ => false
  end.


(** A second sample mapper, with three temperatures only: every value of its
    [levelToCelsius] is a finite number, also for a level that is not one. *)
Definition coarseMapper : TwoWayTempMapper := {|
  levelToCelsius := fun level =>
    if level <? 0 then 15 else if 0 <? level then 35 else 27.5;
  celsiusToLevel := fun tempC =>
    if tempC <? 27.5 then -50 else if 27.5 <? tempC then 50 else 0;
  formatCelsius := fun raw =>
    if raw <? minTempC then minTempC
    else if maxTempC <? raw then maxTempC
    else raw
|}.

(** A remote device that is switched off. *)
Definition switchedOffRemote : Remote := {|
  currentLevelForSide := fun _ => 0;
  accessoryIsOn := false;
  userTargetLevel := 20;
  updateUserTargetLevel := fun level => level
|}.

(** A remote device that reports the target level -43. *)
Definition settledRemote : Remote := {|
  currentLevelForSide := fun _ => 0;
  accessoryIsOn := true;
  userTargetLevel := -43;
  updateUserTargetLevel := fun level => level
|}.

(** A record in which the measured temperature is not a number, while HEAT
    is cached. *)
Definition nan_data : Thermostat_data := {|
  CurrentHeatingCoolingState := HEAT;
  TargetHeatingCoolingState := 3;
  CurrentTemperature := nan;
  TargetTemperature := 24;
  TemperatureDisplayUnits := 1
|}.

(** The states pushed to HomeKit with [updateCharacteristic]. *)
Definition pushed_states (es : list Event) : list CurrentHeatingCoolingStateValue :=
  flat_map (fun e => match e with
                     | UpdateCharacteristic value => [value]
                     | _ => []
                     end) es.

(** The field of the record that a get request reads. *)
Definition field_read (req : Request) (d : Thermostat_data) : option Reply :=
  match req with
  | CurrentHeatingCoolingState_onGet _ => Some (reply_state (CurrentHeatingCoolingState d))
  | TargetHeatingCoolingState_onGet => Some (reply_number (TargetHeatingCoolingState d))
  | CurrentTemperature_onGet => Some (reply_number (CurrentTemperature d))
  | TargetTemperature_onGet => Some (reply_number (TargetTemperature d))
  | TemperatureDisplayUnits_onGet => Some (reply_number (TemperatureDisplayUnits d))
  | _ => None
  end.

(** ** The platform: discovering the two sides of the bed

    [EightSleepThermostatPlatform] of the platform source file: the accessory
    cache filled by [configureAccessory], and [discoverDevices], which
    creates one accessory handler for each side. The client, the UUID
    generator and the registration are Homebridge's and the vendor client's:
    the generator is a parameter, the constructions and registrations are
    effects. *)

Module Platform.

(** [client.currentDevice], as far as the platform reads it. *)
Record ClientDevice : Type := {
  id : string;
  side : string
}.

(** An entry of [eightSleepDevices]. *)
Record Device : Type := {
  accessoryUUID : string;
  displayName : string
}.

(** A [PlatformAccessory]: its display name, its UUID and [context.device]. *)
Record PlatformAccessory : Type := {
  accessory_displayName : string;
  UUID : string;
  context_device : option Device
}.



(** The array [eightSleepDevices] of [discoverDevices]. *)
Definition eightSleepDevices (clientDevice : ClientDevice) : list Device :=
  [ {| accessoryUUID := (id clientDevice ++ ":LEFT")%string;
       displayName := if String.eqb (side clientDevice) "left"
                      then "My Bed" else "Guest Bed" |};
    {| accessoryUUID := (id clientDevice ++ ":RIGHT")%string;
       displayName := if String.eqb (side clientDevice) "right"
                      then "My Bed" else "Guest Bed" |} ].

Section Discover.

(** [api.hap.uuid.generate]. *)
Variable generate : string -> string.

(** The cache [this.accessories]. *)
Variable accessories : list PlatformAccessory.



End Discover.





(** Sample inputs: a device whose owner sleeps on the left, a generator that
    prefixes its argument, and a cache that holds the right side. *)
Definition sampleDevice : ClientDevice := {| id := "bed1"; side := "left" |}.

Definition sampleGenerate (s : string) : string := ("uuid-" ++ s)%string.

Definition cachedRight : PlatformAccessory := {|
  accessory_displayName := "Guest Bed";
  UUID := "uuid-bed1:RIGHT";
  context_device := None
|}.

End Platform.

(** ** The earlier accessory

    The earlier source of [EightSleepThermostatAccessory] derives the current
    state with [===] on the two temperatures, where the later one has
    [tempsAreEqual], and tests the OFF target state first. *)

Module Legacy.

(** The assignment made by the earlier
    [triggerCurrentHeatingCoolingStateUpdate]; as in the later one, the chain
    has no final [else]. *)
Definition nextCurrentState (old : CurrentHeatingCoolingStateValue)
  (currTemp targetTemp targetState : Js.number) : CurrentHeatingCoolingStateValue :=
  if Js.strict_eq targetState 0 || Js.strict_eq currTemp targetTemp then OFF
  else if currTemp <? targetTemp then HEAT
  else if Js.gt currTemp targetTemp then COOL
  else old.

End Legacy.

(** * Properties *)

(** ** Facts on binary64 comparison used by the derivation *)

Section FloatFacts.

Lemma SFcompare_Eq_sub_zero (x y : spec_float) :
  SFcompare x y = Some Eq ->
  (exists s, SF64sub x y = S754_zero s) \/
  (exists s, x = S754_infinity s /\ y = S754_infinity s).
Proof.
  destruct x as [sx|sx| |sx mx ex], y as [sy|sy| |sy my ey]; simpl; intros H;
    try discriminate H;
    try (destruct sx; discriminate H); try (destruct sy; discriminate H).
  - left. destruct sx, sy; eexists; reflexivity.
  - right. exists sx. destruct sx, sy; try discriminate H; auto.
  - left.
    assert (He : ex = ey /\ mx = my /\ sx = sy).
    { destruct sx, sy; try discriminate;
        destruct (Z.compare ex ey) eqn:E; try discriminate;
        apply Z.compare_eq in E; subst;
        destruct (Pos.compare_cont Eq mx my) eqn:E2; try discriminate;
        apply Pos.compare_eq in E2; subst; auto. }
    destruct He as (-> & -> & ->).
    exists false. unfold SF64sub, SFsub.
    rewrite Z.min_id. unfold shl_align. rewrite !Z.sub_diag. reflexivity.
Qed.

Lemma SFcompare_antisym (x y : spec_float) :
  SFcompare y x = option_map CompOpp (SFcompare x y).
Proof.
  destruct x as [sx|sx| |sx mx ex], y as [sy|sy| |sy my ey]; simpl;
    try reflexivity;
    try (destruct sx; reflexivity); try (destruct sy; reflexivity);
    try (destruct sx, sy; reflexivity).
  destruct sx, sy; try reflexivity;
    rewrite (Z.compare_antisym ex ey);
    destruct (Z.compare ex ey); simpl; try reflexivity;
    change (Pos.compare_cont Eq my mx) with (Pos.compare my mx);
    change (Pos.compare_cont Eq mx my) with (Pos.compare mx my);
    rewrite (Pos.compare_antisym mx my);
    destruct (Pos.compare mx my); reflexivity.
Qed.

Lemma finite_Prim2SF (x : float) :
  is_finite x = true ->
  (exists s, Prim2SF x = S754_zero s) \/ (exists s m e, Prim2SF x = S754_finite s m e).
Proof.
  unfold is_finite, is_nan, is_infinity.
  rewrite !eqb_spec, abs_spec.
  destruct (Prim2SF x) as [s|s| |s m e]; simpl.
  - intros _. left. now exists s.
  - destruct s; vm_compute; discriminate.
  - discriminate.
  - intros _. right. now exists s, m, e.
Qed.

(** Two finite numbers that are neither within the tolerance nor in the
    [<] order are in the [>] order: the last [else if] of the derivation is
    always taken for them. *)
Lemma finite_not_close_not_lt_gt (c t : float) :
  is_finite c = true -> is_finite t = true ->
  (abs (t - c) <=? 0.55) = false ->
  (c <? t) = false ->
  (t <? c) = true.
Proof.
  intros Hc Ht Hclose Hlt.
  rewrite ltb_spec in Hlt |- *. unfold SFltb in *.
  rewrite (SFcompare_antisym (Prim2SF c) (Prim2SF t)).
  destruct (SFcompare (Prim2SF c) (Prim2SF t)) as [[ | | ]|] eqn:E; simpl;
    try reflexivity; try discriminate.
  - exfalso.
    assert (E' : SFcompare (Prim2SF t) (Prim2SF c) = Some Eq)
      by (rewrite SFcompare_antisym, E; reflexivity).
    destruct (SFcompare_Eq_sub_zero _ _ E')
      as [[s Hs]|[s [Hi _]]].
    + rewrite leb_spec, abs_spec, sub_spec, Hs in Hclose.
      revert Hclose. vm_compute. discriminate.
    + destruct (finite_Prim2SF t Ht) as [[s' H']|[s' [m' [e' H']]]];
        rewrite H' in Hi; discriminate.
  - exfalso.
    destruct (finite_Prim2SF c Hc) as [[s Hs]|[s [m [e Hs]]]];
      destruct (finite_Prim2SF t Ht) as [[s' H']|[s' [m' [e' H']]]];
      rewrite Hs, H' in E; simpl in E;
      try discriminate; try (destruct s; discriminate);
      try (destruct s'; discriminate).
Qed.

End FloatFacts.

(** ** More facts on binary64 comparison: the guard on levels *)

Lemma SFcompare_refl_finite (s : bool) (m : positive) (e : Z) :
  SFcompare (S754_finite s m e) (S754_finite s m e) = Some Eq.
Proof.
  simpl. destruct s; rewrite Z.compare_refl, Pos.compare_cont_refl; reflexivity.
Qed.

Lemma SFcompare_finite_some (s : bool) (m : positive) (e : Z)
  (s' : bool) (m' : positive) (e' : Z) :
  exists c, SFcompare (S754_finite s m e) (S754_finite s' m' e') = Some c.
Proof. simpl. eexists. reflexivity. Qed.

Lemma ltb_flip (x y : float) :
  (y <? x) = match SFcompare (Prim2SF x) (Prim2SF y) with
             | Some Gt => true
             | _ => false
             end.
Proof.
  rewrite ltb_spec. unfold SFltb.
  rewrite (SFcompare_antisym (Prim2SF x) (Prim2SF y)).
  destruct (SFcompare (Prim2SF x) (Prim2SF y)) as [[ | | ]|]; reflexivity.
Qed.

Lemma leb_flip (x y : float) :
  (y <=? x) = match SFcompare (Prim2SF x) (Prim2SF y) with
              | Some (Gt | Eq) => true
              | _ => false
              end.
Proof.
  rewrite leb_spec. unfold SFleb.
  rewrite (SFcompare_antisym (Prim2SF x) (Prim2SF y)).
  destruct (SFcompare (Prim2SF x) (Prim2SF y)) as [[ | | ]|]; reflexivity.
Qed.

(** The guard rejects exactly the levels outside [-100, 100] (among them
    [NaN]) and, besides, the level zero. *)
Lemma level_rejected_spec (targetLevel : Js.number) :
  level_rejected targetLevel = negb (level_in_range targetLevel) || (targetLevel =? 0).
Proof.
  unfold level_rejected, level_in_range, Js.falsy, Js.gt, is_nan.
  rewrite (ltb_flip targetLevel 100), (leb_flip targetLevel (-100)).
  rewrite ltb_spec, leb_spec, !eqb_spec.
  unfold SFltb, SFleb, SFeqb.
  remember (Prim2SF 100) as c100 eqn:H100. vm_compute in H100. subst c100.
  remember (Prim2SF (-100)) as cm100 eqn:Hm100. vm_compute in Hm100. subst cm100.
  remember (Prim2SF 0) as c0 eqn:H0. vm_compute in H0. subst c0.
  destruct (Prim2SF targetLevel) as [s|s| |s m e].
  - destruct s; reflexivity.
  - destruct s; reflexivity.
  - reflexivity.
  - rewrite SFcompare_refl_finite.
    repeat match goal with
    | |- context [SFcompare (S754_finite ?a ?b ?c) (S754_finite ?a' ?b' ?c')] =>
        let H := fresh in
        destruct (SFcompare_finite_some a b c a' b' c') as [? H]; rewrite H; clear H
    end.
    replace (SFcompare (S754_finite s m e) (S754_zero false))
      with (Some (if s then Lt else Gt)) by reflexivity.
    destruct s;
      repeat match goal with c : comparison |- _ => destruct c end; reflexivity.
Qed.

(** ** Running sequenced effects *)

Lemma bind_of_run {A B : Type} (m : M A) (k : A -> M B)
  (d : Thermostat_data) (a : A) (d1 : Thermostat_data) (es : list Event) :
  m d = mkRun (Normal a) d1 es ->
  bind m k d = mkRun (completion (k a d1)) (data (k a d1)) (es ++ events (k a d1)).
Proof. intros H. unfold bind. rewrite H. reflexivity. Qed.

Lemma bind_of_throw {A B : Type} (m : M A) (k : A -> M B)
  (d : Thermostat_data) (e : HAPStatus) (d1 : Thermostat_data) (es : list Event) :
  m d = mkRun (Throw e) d1 es ->
  bind m k d = mkRun (Throw e) d1 es.
Proof. intros H. unfold bind. rewrite H. reflexivity. Qed.

(** One step of a run: the first action is known to complete normally. *)
Ltac step_with H := rewrite (bind_of_run _ _ _ _ _ _ H).

(** The first action is [ensureDeviceResponsiveness] on a responsive
    accessory. *)
Ltac step_responsive d := rewrite (bind_of_run _ _ d tt d [] eq_refl).

(** ** The derived mode *)

(** On finite temperatures the assignment of the source is the derivation of
    the specification, whatever value was cached before. *)
Lemma nextCurrentState_deriveCurrentMode_spec
  (old : CurrentHeatingCoolingStateValue) (c t m : Js.number) :
  Js.finite c -> Js.finite t ->
  nextCurrentState old c t m = deriveCurrentMode_spec c t m.
Proof.
  intros Hc Ht.
  unfold nextCurrentState, deriveCurrentMode_spec, tempsAreEqual, toleranceC,
    Js.strict_eq, Js.gt, Js.Math_abs.
  destruct (m =? 0); [now rewrite orb_true_r|]. rewrite orb_false_r.
  destruct (abs (t - c) <=? 0.55) eqn:Hclose; [reflexivity|].
  destruct (c <? t) eqn:Hlt; [reflexivity|].
  now rewrite (finite_not_close_not_lt_gt c t Hc Ht Hclose Hlt).
Qed.

(** Not so on [NaN]: no branch of the source is taken and the cached value
    stays. *)
Example nextCurrentState_nan_keeps_cached : nextCurrentState HEAT nan 20 3 = HEAT.
Proof. reflexivity. Qed.

(** What [triggerCurrentHeatingCoolingStateUpdate] does to a record. *)
Lemma triggerCurrentHeatingCoolingStateUpdate_run (d : Thermostat_data) :
  let v := nextCurrentState (CurrentHeatingCoolingState d) (CurrentTemperature d)
             (TargetTemperature d) (TargetHeatingCoolingState d) in
  triggerCurrentHeatingCoolingStateUpdate d =
  mkRun (Normal v) (set_CurrentHeatingCoolingState v d)
    [UpdateCharacteristic v; Log debug "Update CurrentState:" [Mode v]].
Proof. reflexivity. Qed.

(** C1. For every state with finite temperatures, the mode that
    [triggerCurrentHeatingCoolingStateUpdate] derives, caches and returns is
    OFF when the target mode is OFF or the two temperatures are within the
    tolerance 0.55, HEAT when neither holds and the current temperature is
    below the target, and COOL otherwise. *)
Theorem C1_derived_current_mode (d : Thermostat_data) :
  Js.finite (CurrentTemperature d) ->
  Js.finite (TargetTemperature d) ->
  let currentTemperatureC := CurrentTemperature d in
  let targetTemperatureC := TargetTemperature d in
  let targetMode := TargetHeatingCoolingState d in
  let r := triggerCurrentHeatingCoolingStateUpdate d in
  let currentMode := CurrentHeatingCoolingState (data r) in
  completion r = Normal currentMode /\
  currentMode = deriveCurrentMode_spec currentTemperatureC targetTemperatureC targetMode /\
  ((targetMode =? 0) = true \/
   (abs (targetTemperatureC - currentTemperatureC) <=? toleranceC) = true ->
   currentMode = OFF) /\
  ((targetMode =? 0) = false ->
   (abs (targetTemperatureC - currentTemperatureC) <=? toleranceC) = false ->
   (currentTemperatureC <? targetTemperatureC) = true ->
   currentMode = HEAT) /\
  ((targetMode =? 0) = false ->
   (abs (targetTemperatureC - currentTemperatureC) <=? toleranceC) = false ->
   (currentTemperatureC <? targetTemperatureC) = false ->
   currentMode = COOL).
Proof.
  intros Hc Ht. cbv zeta.
  rewrite triggerCurrentHeatingCoolingStateUpdate_run. cbn [completion data].
  change (CurrentHeatingCoolingState (set_CurrentHeatingCoolingState ?v d)) with v.
  rewrite (nextCurrentState_deriveCurrentMode_spec _ _ _ _ Hc Ht).
  unfold deriveCurrentMode_spec.
  split; [reflexivity|]. split; [reflexivity|].
  repeat split.
  - intros [H|H]; rewrite H; [reflexivity|].
    now destruct (TargetHeatingCoolingState d =? 0).
  - intros H1 H2 H3. now rewrite H1, H2, H3.
  - intros H1 H2 H3. now rewrite H1, H2, H3.
Qed.


Lemma C1_derived_current_mode_witness :
  Js.finite (CurrentTemperature heating_data) /\
  Js.finite (TargetTemperature heating_data) /\
  CurrentHeatingCoolingState (data (triggerCurrentHeatingCoolingStateUpdate heating_data)) = HEAT.
Proof.
  split; [reflexivity|]. split; [reflexivity|].
  destruct (C1_derived_current_mode heating_data eq_refl eq_refl)
    as (_ & _ & _ & Hheat & _).
  apply Hheat; reflexivity.
Defined.

(** ** Writing the target temperature *)

Section UpdateTargetTemperature.

Variable tempMapper : TwoWayTempMapper.
Variable remote : Remote.

(** The abort branch of [updateTargetTemperature]. *)
Lemma updateTargetTemperature_rejected (newValue : Js.number) (d : Thermostat_data) :
  let targetC := formatCelsius tempMapper newValue in
  let targetLevel := celsiusToLevel tempMapper targetC in
  level_rejected targetLevel = true ->
  updateTargetTemperature tempMapper remote newValue d =
  mkRun (Normal targetC) d
    [Log error "Something went wrong calculating new bed temp:" [Num targetLevel]].
Proof.
  cbv zeta. unfold level_rejected, updateTargetTemperature. intros H.
  rewrite H. reflexivity.
Qed.

(** The write branch of [updateTargetTemperature]. *)
Lemma updateTargetTemperature_accepted (newValue : Js.number) (d : Thermostat_data) :
  let targetC := formatCelsius tempMapper newValue in
  let targetLevel := celsiusToLevel tempMapper targetC in
  let clientTargetLevel := updateUserTargetLevel remote targetLevel in
  let clientTargetC := levelToCelsius tempMapper clientTargetLevel in
  level_rejected targetLevel = false ->
  updateTargetTemperature tempMapper remote newValue d =
  mkRun (Normal clientTargetC) (set_TargetTemperature clientTargetC d)
    (Call_updateUserTargetLevel targetLevel ::
     if Js.strict_neq targetC clientTargetC || Js.strict_neq targetLevel clientTargetLevel
     then [Log error mismatch_message
             [Num targetC; Num targetLevel; Num clientTargetC; Num clientTargetLevel]]
     else []).
Proof.
  cbv zeta. unfold level_rejected, updateTargetTemperature. intros H.
  rewrite H.
  destruct (Js.strict_neq _ _ || Js.strict_neq _ _); reflexivity.
Qed.

(** A run of [updateTargetTemperature] calls the remote device exactly when
    the guard lets the level through. *)
Lemma updateTargetTemperature_calls_iff (newValue : Js.number) (d : Thermostat_data) :
  let targetLevel := celsiusToLevel tempMapper (formatCelsius tempMapper newValue) in
  remote_calls (events (updateTargetTemperature tempMapper remote newValue d)) =
  if level_rejected targetLevel then [] else [Call_updateUserTargetLevel targetLevel].
Proof.
  cbv zeta.
  destruct (level_rejected (celsiusToLevel tempMapper (formatCelsius tempMapper newValue))) eqn:E.
  - rewrite (updateTargetTemperature_rejected newValue d E). reflexivity.
  - rewrite (updateTargetTemperature_accepted newValue d E). cbn.
    destruct (Js.strict_neq _ _ || Js.strict_neq _ _); reflexivity.
Qed.

(** The write is aborted exactly for a level outside [-100, 100] and for the
    level zero. *)
Lemma updateTargetTemperature_aborts_iff (newValue : Js.number) (d : Thermostat_data) :
  let targetLevel := celsiusToLevel tempMapper (formatCelsius tempMapper newValue) in
  remote_calls (events (updateTargetTemperature tempMapper remote newValue d)) = [] <->
  level_in_range targetLevel = false \/ (targetLevel =? 0) = true.
Proof.
  cbv zeta. rewrite updateTargetTemperature_calls_iff, level_rejected_spec.
  destruct (level_in_range _); destruct (_ =? 0); simpl;
    intuition discriminate.
Qed.

(** The set handler of a responsive accessory, on an accepted level. *)
Lemma handleTargetTemperatureSet_accepted (value : Js.number) (d : Thermostat_data) :
  let targetC := formatCelsius tempMapper value in
  let targetLevel := celsiusToLevel tempMapper targetC in
  let clientTargetLevel := updateUserTargetLevel remote targetLevel in
  let clientTargetC := levelToCelsius tempMapper clientTargetLevel in
  let d1 := set_TargetTemperature clientTargetC d in
  let v := nextCurrentState (CurrentHeatingCoolingState d) (CurrentTemperature d)
             clientTargetC (TargetHeatingCoolingState d) in
  level_rejected targetLevel = false ->
  handleTargetTemperatureSet tempMapper remote false value d =
  mkRun (Normal tt) (set_CurrentHeatingCoolingState v d1)
    ((Call_updateUserTargetLevel targetLevel ::
      if Js.strict_neq targetC clientTargetC || Js.strict_neq targetLevel clientTargetLevel
      then [Log error mismatch_message
              [Num targetC; Num targetLevel; Num clientTargetC; Num clientTargetLevel]]
      else []) ++
     [Log debug "SET TargetTemperature:" [Num clientTargetC];
      UpdateCharacteristic v; Log debug "Update CurrentState:" [Mode v]]).
Proof.
  cbv zeta. intros H.
  unfold handleTargetTemperatureSet, ensureDeviceResponsiveness.
  step_responsive d.
  step_with (updateTargetTemperature_accepted value d H).
  destruct (Js.strict_neq _ _ || Js.strict_neq _ _); reflexivity.
Qed.

(** The set handler of a responsive accessory, on a rejected level. *)
Lemma handleTargetTemperatureSet_rejected (value : Js.number) (d : Thermostat_data) :
  let targetC := formatCelsius tempMapper value in
  let targetLevel := celsiusToLevel tempMapper targetC in
  let v := nextCurrentState (CurrentHeatingCoolingState d) (CurrentTemperature d)
             (TargetTemperature d) (TargetHeatingCoolingState d) in
  level_rejected targetLevel = true ->
  handleTargetTemperatureSet tempMapper remote false value d =
  mkRun (Normal tt) (set_CurrentHeatingCoolingState v d)
    [Log error "Something went wrong calculating new bed temp:" [Num targetLevel];
     Log debug "SET TargetTemperature:" [Num targetC];
     UpdateCharacteristic v; Log debug "Update CurrentState:" [Mode v]].
Proof.
  cbv zeta. intros H.
  unfold handleTargetTemperatureSet, ensureDeviceResponsiveness.
  step_responsive d.
  step_with (updateTargetTemperature_rejected value d H).
  reflexivity.
Qed.

End UpdateTargetTemperature.


(** C2. The guard of [updateTargetTemperature] is wider than the range check:
    for the request 27.5 the sample mapper computes level 0, which lies in
    [-100, 100], and the write is aborted all the same, with an error logged,
    no remote call and the record untouched. *)
Theorem C2_write_of_level_zero_is_aborted :
  let targetLevel := celsiusToLevel sampleMapper (formatCelsius sampleMapper 27.5) in
  let r := updateTargetTemperature sampleMapper obedientRemote 27.5 data_after_set_20 in
  targetLevel = 0 /\
  level_in_range targetLevel = true /\
  r = mkRun (Normal 27.5) data_after_set_20
        [Log error "Something went wrong calculating new bed temp:" [Num 0]] /\
  remote_calls (events r) = [].
Proof. cbv zeta. repeat split; reflexivity. Qed.

(** C4. For every write that the guard lets through, the set handler of a
    responsive accessory completes normally, the stored target temperature is
    [levelToCelsius] of the level echoed by the remote device, and the
    mismatch error is logged once when the echoed level differs from the
    requested level or its Celsius value from the normalized request, and not
    at all otherwise. *)
Theorem C4_remote_value_is_adopted (tempMapper : TwoWayTempMapper) (remote : Remote)
  (requested : Js.number) (d : Thermostat_data) :
  let targetC := formatCelsius tempMapper requested in
  let targetLevel := celsiusToLevel tempMapper targetC in
  let clientTargetLevel := updateUserTargetLevel remote targetLevel in
  let clientTargetC := levelToCelsius tempMapper clientTargetLevel in
  let r := handleTargetTemperatureSet tempMapper remote false requested d in
  level_rejected targetLevel = false ->
  completion r = Normal tt /\
  TargetTemperature (data r) = clientTargetC /\
  completion (updateTargetTemperature tempMapper remote requested d) = Normal clientTargetC /\
  remote_calls (events r) = [Call_updateUserTargetLevel targetLevel] /\
  List.length (mismatch_logs (events r)) =
    (if Js.strict_neq targetC clientTargetC || Js.strict_neq targetLevel clientTargetLevel
     then 1 else 0)%nat.
Proof.
  cbv zeta. intros H.
  rewrite (handleTargetTemperatureSet_accepted tempMapper remote requested d H).
  rewrite (updateTargetTemperature_accepted tempMapper remote requested d H).
  cbn [completion data events].
  destruct (Js.strict_neq _ _ || Js.strict_neq _ _); repeat split; reflexivity.
Qed.

(** The scenario of the specification: the remote device echoes a level one
    unit away from the requested one. *)
Lemma C4_remote_value_is_adopted_witness :
  level_rejected (celsiusToLevel sampleMapper (formatCelsius sampleMapper 20)) = false /\
  let r := handleTargetTemperatureSet sampleMapper driftingRemote false 20 initial_data in
  completion r = Normal tt /\
  TargetTemperature (data r) = levelToCelsius sampleMapper (-42) /\
  List.length (mismatch_logs (events r)) = 1%nat.
Proof.
  split; [reflexivity|].
  destruct (C4_remote_value_is_adopted sampleMapper driftingRemote 20 initial_data eq_refl)
    as (Hc & Ht & _ & _ & Hm).
  cbv zeta. split; [exact Hc|]. split; [exact Ht|exact Hm].
Defined.

(** C5, as the source has it. For every write aborted by the guard,
    [updateTargetTemperature] returns the normalized request
    [formatCelsius requested] with the record untouched; the set handler of a
    responsive accessory logs that value, returns nothing, calls the remote
    device not at all, and changes no field but the cached current state,
    which it derives again. *)
Theorem C5_aborted_write_returns_normalized_request (tempMapper : TwoWayTempMapper)
  (remote : Remote) (requested : Js.number) (d : Thermostat_data) :
  let targetC := formatCelsius tempMapper requested in
  let targetLevel := celsiusToLevel tempMapper targetC in
  let u := updateTargetTemperature tempMapper remote requested d in
  let r := handleTargetTemperatureSet tempMapper remote false requested d in
  level_rejected targetLevel = true ->
  completion u = Normal targetC /\
  data u = d /\
  remote_calls (events u) = [] /\
  completion r = Normal tt /\
  remote_calls (events r) = [] /\
  data r = set_CurrentHeatingCoolingState
             (nextCurrentState (CurrentHeatingCoolingState d) (CurrentTemperature d)
                (TargetTemperature d) (TargetHeatingCoolingState d)) d /\
  TargetTemperature (data r) = TargetTemperature d /\
  CurrentTemperature (data r) = CurrentTemperature d /\
  TargetHeatingCoolingState (data r) = TargetHeatingCoolingState d /\
  TemperatureDisplayUnits (data r) = TemperatureDisplayUnits d.
Proof.
  cbv zeta. intros H.
  rewrite (handleTargetTemperatureSet_rejected tempMapper remote requested d H).
  rewrite (updateTargetTemperature_rejected tempMapper remote requested d H).
  repeat split; reflexivity.
Qed.

Lemma C5_aborted_write_returns_normalized_request_witness :
  level_rejected (celsiusToLevel sampleMapper (formatCelsius sampleMapper maxTempC)) = true /\
  completion (updateTargetTemperature sampleMapper obedientRemote maxTempC data_after_set_20)
  = Normal maxTempC.
Proof.
  split; [reflexivity|].
  exact (proj1 (C5_aborted_write_returns_normalized_request sampleMapper obedientRemote
                  maxTempC data_after_set_20 eq_refl)).
Defined.

(** C5 as stated fails: the request 45.1 maps to level 101, the write is
    aborted, and the value handed back is the request 45.1, not the stored
    target temperature 19.975; the handler itself hands back nothing. *)
Lemma C5_counterexample :
  let targetLevel := celsiusToLevel sampleMapper (formatCelsius sampleMapper maxTempC) in
  let u := updateTargetTemperature sampleMapper obedientRemote maxTempC data_after_set_20 in
  let r := handleTargetTemperatureSet sampleMapper obedientRemote false maxTempC data_after_set_20 in
  targetLevel = 101 /\
  level_in_range targetLevel = false /\
  remote_calls (events u) = [] /\
  TargetTemperature data_after_set_20 = levelToCelsius sampleMapper (-43) /\
  completion u = Normal maxTempC /\
  completion u <> Normal (TargetTemperature data_after_set_20) /\
  completion r = Normal tt.
Proof.
  cbv zeta. repeat split; try reflexivity.
  intros H.
  apply (f_equal (fun c => match c with
                           | Normal x => x =? TargetTemperature data_after_set_20
                           | Throw _ => false
                           end)) in H.
  vm_compute in H. discriminate H.
Qed.

(** C6. When [celsiusToLevel] of the normalized request is exactly 0, a level
    inside [-100, 100], [updateTargetTemperature] takes the abort branch,
    because [!targetLevel] holds of 0: it logs the error, calls the remote
    device not at all and leaves the record, so the stored target
    temperature, as it was. *)
Theorem C6_level_zero_takes_abort_branch (tempMapper : TwoWayTempMapper)
  (remote : Remote) (requested : Js.number) (d : Thermostat_data) :
  let targetC := formatCelsius tempMapper requested in
  let r := updateTargetTemperature tempMapper remote requested d in
  celsiusToLevel tempMapper targetC = 0 ->
  level_in_range 0 = true /\
  Js.falsy 0 = true /\
  r = mkRun (Normal targetC) d
        [Log error "Something went wrong calculating new bed temp:" [Num 0]] /\
  error_logs (events r) =
    [Log error "Something went wrong calculating new bed temp:" [Num 0]] /\
  remote_calls (events r) = [] /\
  TargetTemperature (data r) = TargetTemperature d.
Proof.
  cbv zeta. intros H.
  assert (Hrej : level_rejected (celsiusToLevel tempMapper (formatCelsius tempMapper requested)) = true)
    by (rewrite H; reflexivity).
  rewrite (updateTargetTemperature_rejected tempMapper remote requested d Hrej), H.
  repeat split; reflexivity.
Qed.

Lemma C6_level_zero_takes_abort_branch_witness :
  celsiusToLevel sampleMapper (formatCelsius sampleMapper 27.5) = 0 /\
  remote_calls (events (updateTargetTemperature sampleMapper obedientRemote 27.5
                          data_after_set_20)) = [].
Proof.
  split; [reflexivity|].
  destruct (C6_level_zero_takes_abort_branch sampleMapper obedientRemote 27.5
              data_after_set_20 eq_refl) as (_ & _ & _ & _ & Hcalls & _).
  exact Hcalls.
Defined.

(** ** Fetching the aggregate state *)

Section FetchCurrentState.

Variable tempMapper : TwoWayTempMapper.
Variable remote : Remote.
Variable deviceSide : Side.

(** The continuations of the fetches neither throw nor have further effects;
    each one assigns its own field. *)
Lemma resume_all_run (schedule : list Fetch) (d : Thermostat_data) :
  resume_all tempMapper remote deviceSide schedule d =
  mkRun (Normal tt) (data (resume_all tempMapper remote deviceSide schedule d)) [].
Proof.
  revert d. induction schedule as [|f rest IH]; intros d.
  - reflexivity.
  - cbn [resume_all].
    assert (Hf : resume tempMapper remote deviceSide f d =
                 mkRun (Normal tt) (data (resume tempMapper remote deviceSide f d)) [])
      by (destruct f; reflexivity).
    step_with Hf.
    rewrite IH. reflexivity.
Qed.

(** [fetchCurrentState] issues the three calls, lets the continuations run in
    the scheduled order, and only then derives the current state. *)
Lemma fetchCurrentState_run (schedule : list Fetch) (d : Thermostat_data) :
  let d0 := data (resume_all tempMapper remote deviceSide schedule d) in
  let v := nextCurrentState (CurrentHeatingCoolingState d0) (CurrentTemperature d0)
             (TargetTemperature d0) (TargetHeatingCoolingState d0) in
  fetchCurrentState tempMapper remote deviceSide schedule d =
  mkRun (Normal v) (set_CurrentHeatingCoolingState v d0)
    [Call_currentLevelForSide deviceSide; Call_accessoryIsOn; Call_userTargetLevel;
     UpdateCharacteristic v; Log debug "Update CurrentState:" [Mode v]].
Proof.
  cbv zeta. unfold fetchCurrentState.
  rewrite (bind_of_run _ _ d tt d [Call_currentLevelForSide deviceSide] eq_refl).
  rewrite (bind_of_run _ _ d tt d [Call_accessoryIsOn] eq_refl).
  rewrite (bind_of_run _ _ d tt d [Call_userTargetLevel] eq_refl).
  step_with (resume_all_run schedule d).
  reflexivity.
Qed.

(** The schedules of three answers: every permutation of the source order is
    one of six lists. *)
Lemma schedule_cases (schedule : list Fetch) :
  Permutation schedule source_order ->
  In schedule
    [[FetchCurrentTemp; FetchTargetState; FetchTargetTemp];
     [FetchCurrentTemp; FetchTargetTemp; FetchTargetState];
     [FetchTargetState; FetchCurrentTemp; FetchTargetTemp];
     [FetchTargetState; FetchTargetTemp; FetchCurrentTemp];
     [FetchTargetTemp; FetchCurrentTemp; FetchTargetState];
     [FetchTargetTemp; FetchTargetState; FetchCurrentTemp]].
Proof.
  intros P.
  pose proof (Permutation_length P) as Hlen.
  assert (H1 : In FetchCurrentTemp schedule)
    by (apply (Permutation_in _ (Permutation_sym P)); simpl; auto).
  assert (H2 : In FetchTargetState schedule)
    by (apply (Permutation_in _ (Permutation_sym P)); simpl; auto).
  assert (H3 : In FetchTargetTemp schedule)
    by (apply (Permutation_in _ (Permutation_sym P)); simpl; auto).
  destruct schedule as [|x [|y [|z [|w rest]]]]; try discriminate Hlen.
  simpl in H1, H2, H3.
  destruct x, y, z; simpl; intuition discriminate.
Qed.

End FetchCurrentState.

(** C9. Whatever the order in which the three answers of [Promise.all]
    arrive, [fetchCurrentState] has issued the three calls before, derives the
    current state after the three fields hold the fetched values, and returns
    that derived state: the run does not depend on the order. *)
Theorem C9_fetchCurrentState_joins_three_fetches (tempMapper : TwoWayTempMapper)
  (remote : Remote) (deviceSide : Side) (schedule : list Fetch) (d : Thermostat_data) :
  Permutation schedule source_order ->
  let currentC := levelToCelsius tempMapper (currentLevelForSide remote deviceSide) in
  let targetState := if accessoryIsOn remote then 3 else 0 in
  let targetC := levelToCelsius tempMapper (userTargetLevel remote) in
  let v := nextCurrentState (CurrentHeatingCoolingState d) currentC targetC targetState in
  fetchCurrentState tempMapper remote deviceSide schedule d =
  mkRun (Normal v)
    {| CurrentHeatingCoolingState := v;
       TargetHeatingCoolingState := targetState;
       CurrentTemperature := currentC;
       TargetTemperature := targetC;
       TemperatureDisplayUnits := TemperatureDisplayUnits d |}
    [Call_currentLevelForSide deviceSide; Call_accessoryIsOn; Call_userTargetLevel;
     UpdateCharacteristic v; Log debug "Update CurrentState:" [Mode v]].
Proof.
  intros P. cbv zeta.
  rewrite fetchCurrentState_run.
  pose proof (schedule_cases schedule P) as Hs. simpl in Hs.
  repeat (destruct Hs as [<-|Hs]; [reflexivity|]).
  contradiction.
Qed.

Lemma C9_fetchCurrentState_joins_three_fetches_witness :
  Permutation [FetchTargetTemp; FetchCurrentTemp; FetchTargetState] source_order /\
  completion (fetchCurrentState sampleMapper obedientRemote left
                [FetchTargetTemp; FetchCurrentTemp; FetchTargetState] initial_data)
  = Normal HEAT.
Proof.
  assert (P : Permutation [FetchTargetTemp; FetchCurrentTemp; FetchTargetState] source_order).
  { apply Permutation_sym, (Permutation_cons_app [FetchTargetTemp] [FetchTargetState]).
    apply perm_swap. }
  split; [exact P|].
  rewrite (C9_fetchCurrentState_joins_three_fetches sampleMapper obedientRemote left
             _ initial_data P).
  reflexivity.
Defined.

(** ** The handlers *)

Section Handlers.

Variable tempMapper : TwoWayTempMapper.
Variable deviceSide : Side.
Variable userIdForSide : string.

(** [updateDeviceState] only talks to the remote device and the log. *)
Lemma updateDeviceState_run (newValue : Js.number) (d : Thermostat_data) :
  updateDeviceState userIdForSide newValue d =
  mkRun (Normal tt) d
    (if Js.strict_eq newValue 3 then
       [Log warn "Turning on device ->" [Str userIdForSide]; Call_turnOnAccessory]
     else if Js.strict_eq newValue 0 then
       [Call_turnOffAccessory; Log warn "Turning off device ->" [Str userIdForSide]]
     else []).
Proof.
  unfold updateDeviceState.
  destruct (Js.strict_eq newValue 3); [reflexivity|].
  destruct (Js.strict_eq newValue 0); reflexivity.
Qed.

(** The set handler of the target state, on a responsive accessory. *)
Lemma handleTargetHeatingCoolingStateSet_run (value : Js.number) (d : Thermostat_data) :
  let v := nextCurrentState (CurrentHeatingCoolingState d) (CurrentTemperature d)
             (TargetTemperature d) value in
  handleTargetHeatingCoolingStateSet userIdForSide false value d =
  mkRun (Normal tt)
    (set_CurrentHeatingCoolingState v (set_TargetHeatingCoolingState value d))
    ((if Js.strict_neq (TargetHeatingCoolingState d) value
      then events (updateDeviceState userIdForSide value d) else []) ++
     [Log debug "SET TargetHeatingCoolingState:" [Num value];
      UpdateCharacteristic v; Log debug "Update CurrentState:" [Mode v]]).
Proof.
  cbv zeta. unfold handleTargetHeatingCoolingStateSet, ensureDeviceResponsiveness.
  step_responsive d.
  rewrite (bind_of_run read _ d d d [] eq_refl).
  destruct (Js.strict_neq (TargetHeatingCoolingState d) value).
  - step_with (updateDeviceState_run value d).
    rewrite updateDeviceState_run. reflexivity.
  - reflexivity.
Qed.

(** The get handler of the current state, on a responsive accessory. *)
Lemma handleCurrentHeatingCoolingStateGet_run (remote : Remote) (schedule : list Fetch)
  (d : Thermostat_data) :
  let d0 := data (resume_all tempMapper remote deviceSide schedule d) in
  let v := nextCurrentState (CurrentHeatingCoolingState d0) (CurrentTemperature d0)
             (TargetTemperature d0) (TargetHeatingCoolingState d0) in
  handleCurrentHeatingCoolingStateGet tempMapper remote deviceSide false schedule d =
  mkRun (Normal v) (set_CurrentHeatingCoolingState v d0)
    [Call_currentLevelForSide deviceSide; Call_accessoryIsOn; Call_userTargetLevel;
     UpdateCharacteristic v; Log debug "Update CurrentState:" [Mode v];
     Log debug "GET CurrentHeatingCoolingState" [Mode v]].
Proof.
  cbv zeta. unfold handleCurrentHeatingCoolingStateGet, ensureDeviceResponsiveness.
  step_responsive d.
  step_with (fetchCurrentState_run tempMapper remote deviceSide schedule d).
  reflexivity.
Qed.

(** A handler that recomputes leaves the record that
    [triggerCurrentHeatingCoolingStateUpdate] made of some record [d0]. *)
Lemma recomputing_handler_ends_with_trigger (remote : Remote) (req : Request)
  (d : Thermostat_data) :
  recomputes req = true ->
  exists d0,
    data (handle tempMapper deviceSide userIdForSide false remote req d) =
    set_CurrentHeatingCoolingState
      (nextCurrentState (CurrentHeatingCoolingState d0) (CurrentTemperature d0)
         (TargetTemperature d0) (TargetHeatingCoolingState d0)) d0.
Proof.
  destruct req as [schedule|value| | |value| |value| ]; try discriminate; intros _.
  - exists (data (resume_all tempMapper remote deviceSide schedule d)).
    unfold handle.
    step_with (handleCurrentHeatingCoolingStateGet_run remote schedule d).
    reflexivity.
  - exists (set_TargetHeatingCoolingState value d).
    unfold handle.
    step_with (handleTargetHeatingCoolingStateSet_run value d).
    reflexivity.
  - destruct (level_rejected (celsiusToLevel tempMapper (formatCelsius tempMapper value))) eqn:E.
    + exists d. unfold handle.
      step_with (handleTargetTemperatureSet_rejected tempMapper remote value d E).
      reflexivity.
    + exists (set_TargetTemperature
                (levelToCelsius tempMapper
                   (updateUserTargetLevel remote
                      (celsiusToLevel tempMapper (formatCelsius tempMapper value)))) d).
      unfold handle.
      step_with (handleTargetTemperatureSet_accepted tempMapper remote value d E).
      reflexivity.
Qed.

(** A handler that does not recompute never assigns the cached state. *)
Lemma other_handler_keeps_cached_state (isNotResponding : bool) (remote : Remote)
  (req : Request) (d : Thermostat_data) :
  recomputes req = false ->
  CurrentHeatingCoolingState
    (data (handle tempMapper deviceSide userIdForSide isNotResponding remote req d)) =
  CurrentHeatingCoolingState d.
Proof.
  destruct req; try discriminate; intros _; destruct isNotResponding; reflexivity.
Qed.

End Handlers.


(** C3, as the source has it. The handlers that end with
    [triggerCurrentHeatingCoolingStateUpdate] (get of the current state, set
    of the target state, set of the target temperature) leave, on a
    responsive accessory, a cached current state equal to the derivation on
    the stored target state and the stored, finite, temperatures; every other
    handler leaves the cached current state as it was, also when it stores a
    freshly fetched temperature or target state. *)
Theorem C3_recomputing_handlers_restore_derived_mode (tempMapper : TwoWayTempMapper)
  (deviceSide : Side) (userIdForSide : string) (isNotResponding : bool)
  (remote : Remote) (req : Request) (d : Thermostat_data) :
  let d' := data (handle tempMapper deviceSide userIdForSide isNotResponding remote req d) in
  (recomputes req = true ->
   isNotResponding = false ->
   Js.finite (CurrentTemperature d') ->
   Js.finite (TargetTemperature d') ->
   CurrentHeatingCoolingState d' =
   deriveCurrentMode_spec (CurrentTemperature d') (TargetTemperature d')
     (TargetHeatingCoolingState d')) /\
  (recomputes req = false ->
   CurrentHeatingCoolingState d' = CurrentHeatingCoolingState d).
Proof.
  cbv zeta. split.
  - intros Hreq -> Hc Ht.
    destruct (recomputing_handler_ends_with_trigger tempMapper deviceSide userIdForSide
                remote req d Hreq) as [d0 Hd0].
    rewrite Hd0 in Hc, Ht |- *.
    exact (nextCurrentState_deriveCurrentMode_spec _ _ _ _ Hc Ht).
  - apply other_handler_keeps_cached_state.
Qed.

(** C3 as stated fails: after a get of the current state has cached HEAT
    (27.5 measured, 31 wanted), a get of the current temperature stores the
    newly measured 34.5 and leaves HEAT cached, where the derivation on the
    stored fields is COOL. *)
Lemma C3_counterexample :
  let d1 := data (handle sampleMapper left "user" false obedientRemote
                    (CurrentHeatingCoolingState_onGet source_order) initial_data) in
  let d2 := data (handle sampleMapper left "user" false warmedRemote
                    CurrentTemperature_onGet d1) in
  reachable sampleMapper left "user" false d2 /\
  Js.finite (CurrentTemperature d2) /\
  Js.finite (TargetTemperature d2) /\
  CurrentHeatingCoolingState d2 = HEAT /\
  deriveCurrentMode_spec (CurrentTemperature d2) (TargetTemperature d2)
    (TargetHeatingCoolingState d2) = COOL /\
  CurrentHeatingCoolingState d2 <>
  deriveCurrentMode_spec (CurrentTemperature d2) (TargetTemperature d2)
    (TargetHeatingCoolingState d2).
Proof.
  cbv zeta. split.
  - apply reachable_handle, reachable_handle, reachable_initial.
  - repeat split; try reflexivity. vm_compute. discriminate.
Qed.

(** C7. For a requested target state OFF (0) or AUTO (3), the set handler of a
    responsive accessory sends one power command, on for AUTO and off for OFF,
    when the requested value differs from the stored target state, and none
    when it does not; it stores the requested value without waiting for the
    remote device, and derives the current state from it before it returns. *)
Theorem C7_set_target_state (userIdForSide : string) (requested : Js.number)
  (d : Thermostat_data) :
  requested = 0 \/ requested = 3 ->
  let r := handleTargetHeatingCoolingStateSet userIdForSide false requested d in
  let v := nextCurrentState (CurrentHeatingCoolingState d) (CurrentTemperature d)
             (TargetTemperature d) requested in
  completion r = Normal tt /\
  power_commands (events r) =
    (if Js.strict_neq (TargetHeatingCoolingState d) requested
     then [if Js.strict_eq requested 3 then Call_turnOnAccessory else Call_turnOffAccessory]
     else []) /\
  remote_calls (events r) = power_commands (events r) /\
  TargetHeatingCoolingState (data r) = requested /\
  CurrentHeatingCoolingState (data r) = v /\
  In (UpdateCharacteristic v) (events r).
Proof.
  intros Hreq. cbv zeta.
  rewrite handleTargetHeatingCoolingStateSet_run, updateDeviceState_run.
  cbn [completion data events].
  destruct Hreq as [-> | ->];
    destruct (Js.strict_neq (TargetHeatingCoolingState d) _);
    repeat split; try reflexivity; simpl; auto.
Qed.

(** For a number that is neither 0 nor 3, [updateDeviceState] sends nothing,
    also when the number differs from the stored target state. *)
Example handleTargetHeatingCoolingStateSet_other_value :
  let r := handleTargetHeatingCoolingStateSet "user" false 1 initial_data in
  Js.strict_neq (TargetHeatingCoolingState initial_data) 1 = true /\
  power_commands (events r) = [] /\
  TargetHeatingCoolingState (data r) = 1.
Proof. cbv zeta. repeat split; reflexivity. Qed.

Lemma C7_set_target_state_witness :
  (3 = 0 \/ 3 = 3) /\
  power_commands (events (handleTargetHeatingCoolingStateSet "user" false 3 initial_data))
  = [Call_turnOnAccessory].
Proof.
  split; [right; reflexivity|].
  exact (proj1 (proj2 (C7_set_target_state "user" 3 initial_data (or_intror eq_refl)))).
Defined.

(** C8. On an accessory flagged as not responding, every get and set handler
    throws [SERVICE_COMMUNICATION_FAILURE] at once: the record is as it was
    and no call, log or update has been made. *)
Theorem C8_unresponsive_accessory_fails_first (tempMapper : TwoWayTempMapper)
  (deviceSide : Side) (userIdForSide : string) (remote : Remote)
  (req : Request) (d : Thermostat_data) :
  handle tempMapper deviceSide userIdForSide true remote req d =
  mkRun (Throw SERVICE_COMMUNICATION_FAILURE) d [].
Proof. destruct req; reflexivity. Qed.

(** * Further properties of the accessory *)

(** ** The remote traffic of a request *)

Lemma bind_ret_events {A B : Type} (h : M A) (f : A -> B) (d : Thermostat_data) :
  events (bind h (fun v => ret (f v)) d) = events (h d).
Proof.
  unfold bind. destruct (completion (h d)); cbn; rewrite ?app_nil_r; reflexivity.
Qed.

Lemma bind_ret_data {A B : Type} (h : M A) (f : A -> B) (d : Thermostat_data) :
  data (bind h (fun v => ret (f v)) d) = data (h d).
Proof. unfold bind. destruct (completion (h d)); reflexivity. Qed.

Lemma levels_sent_remote_calls (es : list Event) :
  levels_sent (remote_calls es) = levels_sent es.
Proof.
  unfold levels_sent, remote_calls.
  induction es as [|e es IH]; [reflexivity|].
  destruct e; cbn; rewrite ?IH; reflexivity.
Qed.

Lemma sides_asked_remote_calls (es : list Event) :
  sides_asked (remote_calls es) = sides_asked es.
Proof.
  unfold sides_asked, remote_calls.
  induction es as [|e es IH]; [reflexivity|].
  destruct e; cbn; rewrite ?IH; reflexivity.
Qed.

Lemma device_writes_remote_calls (es : list Event) :
  device_writes (remote_calls es) = device_writes es.
Proof.
  unfold device_writes, remote_calls.
  induction es as [|e es IH]; [reflexivity|].
  destruct e; cbn; rewrite ?IH; reflexivity.
Qed.

(** X1. The remote calls of each request on a responsive accessory: the get
    of the current state makes the three fetches, each other get the one
    fetch of its field, the set of the target state at most one power
    command, the set of the target temperature the one level update unless
    the guard rejects the level, and the display units none. *)
Theorem remote_calls_of_request (tempMapper : TwoWayTempMapper) (deviceSide : Side)
  (userIdForSide : string) (remote : Remote) (req : Request) (d : Thermostat_data) :
  remote_calls (events (handle tempMapper deviceSide userIdForSide false remote req d)) =
  match req with
  | CurrentHeatingCoolingState_onGet _ =>
      [Call_currentLevelForSide deviceSide; Call_accessoryIsOn; Call_userTargetLevel]
  | TargetHeatingCoolingState_onSet value =>
      if Js.strict_neq (TargetHeatingCoolingState d) value then
        if Js.strict_eq value 3 then [Call_turnOnAccessory]
        else if Js.strict_eq value 0 then [Call_turnOffAccessory]
        else []
      else []
  | TargetHeatingCoolingState_onGet => [Call_accessoryIsOn]
  | CurrentTemperature_onGet => [Call_currentLevelForSide deviceSide]
  | TargetTemperature_onSet value =>
      let targetLevel := celsiusToLevel tempMapper (formatCelsius tempMapper value) in
      if level_rejected targetLevel then [] else [Call_updateUserTargetLevel targetLevel]
  | TargetTemperature_onGet => [Call_userTargetLevel]
  | TemperatureDisplayUnits_onSet _ | TemperatureDisplayUnits_onGet => []
  end.
Proof.
  destruct req as [schedule|value| | |value| |value| ]; unfold handle;
    rewrite bind_ret_events; try reflexivity.
  - rewrite handleCurrentHeatingCoolingStateGet_run. reflexivity.
  - rewrite handleTargetHeatingCoolingStateSet_run, updateDeviceState_run.
    cbn [events].
    destruct (Js.strict_neq (TargetHeatingCoolingState d) value); [|reflexivity].
    destruct (Js.strict_eq value 3); [reflexivity|].
    destruct (Js.strict_eq value 0); reflexivity.
  - cbv zeta.
    destruct (level_rejected (celsiusToLevel tempMapper (formatCelsius tempMapper value))) eqn:E.
    + rewrite (handleTargetTemperatureSet_rejected tempMapper remote value d E). reflexivity.
    + rewrite (handleTargetTemperatureSet_accepted tempMapper remote value d E).
      cbn [events]. destruct (Js.strict_neq _ _ || Js.strict_neq _ _); reflexivity.
Qed.

Lemma handle_unresponsive_events (tempMapper : TwoWayTempMapper) (deviceSide : Side)
  (userIdForSide : string) (remote : Remote) (req : Request) (d : Thermostat_data) :
  events (handle tempMapper deviceSide userIdForSide true remote req d) = [].
Proof. destruct req; reflexivity. Qed.

(** X2. No handler ever sends the remote device a level outside [-100, 100],
    or the level zero: every level in a [updateUserTargetLevel] call has
    passed the guard. *)
Theorem levels_sent_are_in_range (tempMapper : TwoWayTempMapper) (deviceSide : Side)
  (userIdForSide : string) (isNotResponding : bool) (remote : Remote)
  (req : Request) (d : Thermostat_data) (level : Js.number) :
  In level (levels_sent (events (handle tempMapper deviceSide userIdForSide
                                   isNotResponding remote req d))) ->
  level_in_range level = true /\ (level =? 0) = false.
Proof.
  destruct isNotResponding.
  - rewrite handle_unresponsive_events. intros [].
  - rewrite <- levels_sent_remote_calls, remote_calls_of_request.
    destruct req as [schedule|value| | |value| |value| ]; cbv zeta;
      repeat match goal with
             | |- context [if ?b then _ else _] => destruct b eqn:?
             end;
      cbn; try tauto.
    intros [<-|[]].
    match goal with
    | E : level_rejected _ = false |- _ =>
        rewrite level_rejected_spec in E; apply orb_false_elim in E;
        destruct E as [E1 E2]
    end.
    split; [now apply negb_false_iff|exact E2].
Qed.

Lemma levels_sent_are_in_range_witness :
  In (-43) (levels_sent (events (handle sampleMapper left "user" false obedientRemote
                                   (TargetTemperature_onSet 20) initial_data))) /\
  level_in_range (-43) = true.
Proof.
  assert (H : In (-43) (levels_sent (events (handle sampleMapper left "user" false
                          obedientRemote (TargetTemperature_onSet 20) initial_data))))
    by (left; reflexivity).
  split; [exact H|].
  exact (proj1 (levels_sent_are_in_range sampleMapper left "user" false obedientRemote
                  (TargetTemperature_onSet 20) initial_data (-43) H)).
Defined.

(** X3. Reading never changes the device: a handler bound with [onGet] sends
    no level update and no power command. *)
Theorem get_handlers_never_write_to_device (tempMapper : TwoWayTempMapper)
  (deviceSide : Side) (userIdForSide : string) (isNotResponding : bool)
  (remote : Remote) (req : Request) (d : Thermostat_data) :
  is_get req = true ->
  device_writes (events (handle tempMapper deviceSide userIdForSide
                           isNotResponding remote req d)) = [].
Proof.
  intros Hget. destruct isNotResponding.
  - rewrite handle_unresponsive_events. reflexivity.
  - rewrite <- device_writes_remote_calls, remote_calls_of_request.
    destruct req; try discriminate Hget; reflexivity.
Qed.

Lemma get_handlers_never_write_to_device_witness :
  is_get (CurrentHeatingCoolingState_onGet source_order) = true /\
  device_writes (events (handle sampleMapper left "user" false obedientRemote
                           (CurrentHeatingCoolingState_onGet source_order) initial_data)) = [].
Proof.
  split; [reflexivity|].
  exact (get_handlers_never_write_to_device sampleMapper left "user" false obedientRemote
           (CurrentHeatingCoolingState_onGet source_order) initial_data eq_refl).
Defined.

(** X4. An accessory only ever asks for the measured level of its own side. *)
Theorem only_own_side_is_asked (tempMapper : TwoWayTempMapper) (deviceSide : Side)
  (userIdForSide : string) (isNotResponding : bool) (remote : Remote)
  (req : Request) (d : Thermostat_data) (side : Side) :
  In side (sides_asked (events (handle tempMapper deviceSide userIdForSide
                                  isNotResponding remote req d))) ->
  side = deviceSide.
Proof.
  destruct isNotResponding.
  - rewrite handle_unresponsive_events. intros [].
  - rewrite <- sides_asked_remote_calls, remote_calls_of_request.
    destruct req as [schedule|value| | |value| |value| ]; cbv zeta;
      repeat match goal with
             | |- context [if ?b then _ else _] => destruct b eqn:?
             end;
      cbn; try tauto; intros [H|[]]; now symmetry.
Qed.

Lemma only_own_side_is_asked_witness :
  In right (sides_asked (events (handle sampleMapper right "user" false obedientRemote
                                   CurrentTemperature_onGet initial_data))) /\
  right = right.
Proof.
  assert (H : In right (sides_asked (events (handle sampleMapper right "user" false
                          obedientRemote CurrentTemperature_onGet initial_data))))
    by (left; reflexivity).
  split; [exact H|].
  exact (only_own_side_is_asked sampleMapper right "user" false obedientRemote
           CurrentTemperature_onGet initial_data right H).
Defined.

(** ** Which fields a request can change *)

Section Frame.

Variable tempMapper : TwoWayTempMapper.
Variable deviceSide : Side.
Variable userIdForSide : string.

(** The continuations of the fetches leave the cached state and the display
    units alone, and a temperature is either left alone or becomes the
    Celsius value of the level that the remote device reported. *)
Lemma resume_all_frame (remote : Remote) (schedule : list Fetch) (d : Thermostat_data) :
  let d' := data (resume_all tempMapper remote deviceSide schedule d) in
  CurrentHeatingCoolingState d' = CurrentHeatingCoolingState d /\
  TemperatureDisplayUnits d' = TemperatureDisplayUnits d /\
  (CurrentTemperature d' = CurrentTemperature d \/
   CurrentTemperature d' = levelToCelsius tempMapper (currentLevelForSide remote deviceSide)) /\
  (TargetTemperature d' = TargetTemperature d \/
   TargetTemperature d' = levelToCelsius tempMapper (userTargetLevel remote)).
Proof.
  cbv zeta. revert d. induction schedule as [|f rest IH]; intros d.
  - cbn. tauto.
  - cbn [resume_all].
    assert (Hf : resume tempMapper remote deviceSide f d =
                 mkRun (Normal tt) (data (resume tempMapper remote deviceSide f d)) [])
      by (destruct f; reflexivity).
    step_with Hf. cbn [data].
    destruct (IH (data (resume tempMapper remote deviceSide f d))) as (H1 & H2 & H3 & H4).
    rewrite H1, H2.
    destruct f; cbn in *; intuition congruence.
Qed.

(** Where a handler leaves the two temperatures. *)
Lemma handle_temperatures (isNotResponding : bool) (remote : Remote) (req : Request)
  (d : Thermostat_data) :
  let d' := data (handle tempMapper deviceSide userIdForSide isNotResponding remote req d) in
  (CurrentTemperature d' = CurrentTemperature d \/
   exists level, CurrentTemperature d' = levelToCelsius tempMapper level) /\
  (TargetTemperature d' = TargetTemperature d \/
   exists level, TargetTemperature d' = levelToCelsius tempMapper level).
Proof.
  cbv zeta. destruct isNotResponding.
  - destruct req; cbn; tauto.
  - destruct req as [schedule|value| | |value| |value| ]; unfold handle;
      rewrite bind_ret_data; try (cbn; eauto; fail).
    + rewrite handleCurrentHeatingCoolingStateGet_run. cbn [data].
      destruct (resume_all_frame remote schedule d) as (_ & _ & [H3|H3] & [H4|H4]);
        cbn; split; eauto.
    + rewrite handleTargetHeatingCoolingStateSet_run. cbn. tauto.
    + destruct (level_rejected (celsiusToLevel tempMapper (formatCelsius tempMapper value))) eqn:E.
      * rewrite (handleTargetTemperatureSet_rejected tempMapper remote value d E). cbn. tauto.
      * rewrite (handleTargetTemperatureSet_accepted tempMapper remote value d E). cbn. eauto.
Qed.

End Frame.

(** X5. A request changes only the fields that its handler assigns: the other
    ones among the two temperatures, the target state and the display units
    are after the call what they were before, on a responsive accessory and
    on one that is not. *)
Theorem unassigned_fields_are_kept (tempMapper : TwoWayTempMapper) (deviceSide : Side)
  (userIdForSide : string) (isNotResponding : bool) (remote : Remote)
  (req : Request) (d : Thermostat_data) :
  let d' := data (handle tempMapper deviceSide userIdForSide isNotResponding remote req d) in
  (assigns_CurrentTemperature req = false ->
   CurrentTemperature d' = CurrentTemperature d) /\
  (assigns_TargetTemperature req = false ->
   TargetTemperature d' = TargetTemperature d) /\
  (assigns_TargetHeatingCoolingState req = false ->
   TargetHeatingCoolingState d' = TargetHeatingCoolingState d) /\
  (assigns_TemperatureDisplayUnits req = false ->
   TemperatureDisplayUnits d' = TemperatureDisplayUnits d).
Proof.
  cbv zeta. destruct isNotResponding.
  - destruct req; cbn; tauto.
  - destruct req as [schedule|value| | |value| |value| ]; unfold handle;
      rewrite bind_ret_data; try (cbn; intuition (reflexivity || discriminate); fail).
    + rewrite handleCurrentHeatingCoolingStateGet_run. cbn [data].
      destruct (resume_all_frame tempMapper deviceSide remote schedule d) as (_ & H2 & _).
      cbn. intuition (assumption || discriminate).
    + rewrite handleTargetHeatingCoolingStateSet_run. cbn.
      intuition (reflexivity || discriminate).
    + destruct (level_rejected (celsiusToLevel tempMapper (formatCelsius tempMapper value))) eqn:E.
      * rewrite (handleTargetTemperatureSet_rejected tempMapper remote value d E). cbn.
        intuition (reflexivity || discriminate).
      * rewrite (handleTargetTemperatureSet_accepted tempMapper remote value d E). cbn.
        intuition (reflexivity || discriminate).
Qed.



Lemma coarseMapper_finite (level : Js.number) :
  Js.finite (levelToCelsius coarseMapper level).
Proof.
  unfold Js.finite. cbn.
  destruct (level <? 0); [reflexivity|].
  destruct (0 <? level); reflexivity.
Qed.

(** With such a mapper every record that an accessory can hold has finite
    temperatures. *)
Lemma reachable_temperatures_are_finite (tempMapper : TwoWayTempMapper)
  (deviceSide : Side) (userIdForSide : string) (isNotResponding : bool)
  (d : Thermostat_data) :
  (forall level, Js.finite (levelToCelsius tempMapper level)) ->
  reachable tempMapper deviceSide userIdForSide isNotResponding d ->
  Js.finite (CurrentTemperature d) /\ Js.finite (TargetTemperature d).
Proof.
  intros Hfin. induction 1 as [|remote req d Hd [IHc IHt]].
  - split; reflexivity.
  - destruct (handle_temperatures tempMapper deviceSide userIdForSide isNotResponding
                remote req d) as [[Hc|[lc Hc]] [Ht|[lt Ht]]];
      split; rewrite ?Hc, ?Ht; auto.
Qed.

(** X7. With a mapper whose [levelToCelsius] only yields finite numbers, every
    handler that recomputes leaves, from any record that a responsive
    accessory can hold, a cached current state equal to the derivation on the
    stored fields. *)
Theorem reachable_recompute_derives (tempMapper : TwoWayTempMapper)
  (deviceSide : Side) (userIdForSide : string) (remote : Remote)
  (req : Request) (d : Thermostat_data) :
  (forall level, Js.finite (levelToCelsius tempMapper level)) ->
  reachable tempMapper deviceSide userIdForSide false d ->
  recomputes req = true ->
  let d' := data (handle tempMapper deviceSide userIdForSide false remote req d) in
  CurrentHeatingCoolingState d' =
  deriveCurrentMode_spec (CurrentTemperature d') (TargetTemperature d')
    (TargetHeatingCoolingState d').
Proof.
  intros Hfin Hd Hreq. cbv zeta.
  destruct (reachable_temperatures_are_finite tempMapper deviceSide userIdForSide false _
              Hfin
              (reachable_handle tempMapper deviceSide userIdForSide false remote req d Hd))
    as [Hc Ht].
  destruct (recomputing_handler_ends_with_trigger tempMapper deviceSide userIdForSide
              remote req d Hreq) as [d0 Hd0].
  rewrite Hd0 in Hc, Ht |- *.
  exact (nextCurrentState_deriveCurrentMode_spec _ _ _ _ Hc Ht).
Qed.

Lemma reachable_recompute_derives_witness :
  (forall level, Js.finite (levelToCelsius coarseMapper level)) /\
  reachable coarseMapper left "user" false initial_data /\
  recomputes (CurrentHeatingCoolingState_onGet source_order) = true /\
  CurrentHeatingCoolingState
    (data (handle coarseMapper left "user" false obedientRemote
             (CurrentHeatingCoolingState_onGet source_order) initial_data)) = HEAT.
Proof.
  split; [exact coarseMapper_finite|].
  split; [apply reachable_initial|].
  split; [reflexivity|].
  rewrite (reachable_recompute_derives coarseMapper left "user" obedientRemote
             (CurrentHeatingCoolingState_onGet source_order) initial_data
             coarseMapper_finite (reachable_initial coarseMapper left "user" false) eq_refl).
  reflexivity.
Defined.

(** ** Deriving the current state again *)

Lemma nextCurrentState_idempotent (old : CurrentHeatingCoolingStateValue)
  (c t m : Js.number) :
  nextCurrentState (nextCurrentState old c t m) c t m = nextCurrentState old c t m.
Proof.
  unfold nextCurrentState.
  destruct (tempsAreEqual c t || Js.strict_eq m 0); [reflexivity|].
  destruct (c <? t); [reflexivity|].
  destruct (Js.gt c t); reflexivity.
Qed.

(** X8. [triggerCurrentHeatingCoolingStateUpdate] is idempotent: a second
    call right after the first one returns the same state and leaves the
    record as the first call left it, for every record. *)
Theorem triggerCurrentHeatingCoolingStateUpdate_idempotent (d : Thermostat_data) :
  let r1 := triggerCurrentHeatingCoolingStateUpdate d in
  let r2 := triggerCurrentHeatingCoolingStateUpdate (data r1) in
  completion r2 = completion r1 /\ data r2 = data r1 /\ events r2 = events r1.
Proof.
  cbv zeta. rewrite !triggerCurrentHeatingCoolingStateUpdate_run.
  cbn [completion data events set_CurrentHeatingCoolingState
       CurrentHeatingCoolingState CurrentTemperature TargetTemperature
       TargetHeatingCoolingState TemperatureDisplayUnits].
  rewrite nextCurrentState_idempotent. repeat split; reflexivity.
Qed.

(** X9. Switching the accessory off always shows OFF: after the set of the
    target state to 0 the cached current state is OFF and OFF is pushed,
    whatever the stored temperatures are. *)
Theorem set_target_state_off_shows_off (userIdForSide : string) (d : Thermostat_data) :
  let r := handleTargetHeatingCoolingStateSet userIdForSide false 0 d in
  CurrentHeatingCoolingState (data r) = OFF /\
  TargetHeatingCoolingState (data r) = 0 /\
  In (UpdateCharacteristic OFF) (events r).
Proof.
  cbv zeta. rewrite handleTargetHeatingCoolingStateSet_run.
  assert (Hoff : nextCurrentState (CurrentHeatingCoolingState d) (CurrentTemperature d)
                   (TargetTemperature d) 0 = OFF).
  { unfold nextCurrentState. now rewrite orb_true_r. }
  rewrite Hoff. cbn [data events].
  repeat split. apply in_or_app. right. cbn. auto.
Qed.

(** X10. A device that the remote side reports as switched off is shown OFF:
    the get of the current state stores the target state 0 and returns OFF,
    whatever levels were fetched and in whatever order the answers came. *)
Theorem get_current_state_of_switched_off_device (tempMapper : TwoWayTempMapper)
  (remote : Remote) (deviceSide : Side) (schedule : list Fetch) (d : Thermostat_data) :
  accessoryIsOn remote = false ->
  Permutation schedule source_order ->
  let r := handleCurrentHeatingCoolingStateGet tempMapper remote deviceSide false schedule d in
  completion r = Normal OFF /\
  CurrentHeatingCoolingState (data r) = OFF /\
  TargetHeatingCoolingState (data r) = 0.
Proof.
  intros Hoff P. cbv zeta.
  rewrite handleCurrentHeatingCoolingStateGet_run. cbn [completion data].
  assert (Hs : TargetHeatingCoolingState
                 (data (resume_all tempMapper remote deviceSide schedule d)) = 0).
  { pose proof (schedule_cases schedule P) as Hc. simpl in Hc.
    repeat (destruct Hc as [<-|Hc]; [cbn; now rewrite Hoff|]). contradiction. }
  rewrite Hs.
  assert (Hn : forall old c t, nextCurrentState old c t 0 = OFF).
  { intros. unfold nextCurrentState. now rewrite orb_true_r. }
  rewrite Hn. repeat split; assumption.
Qed.

Lemma get_current_state_of_switched_off_device_witness :
  accessoryIsOn switchedOffRemote = false /\
  Permutation source_order source_order /\
  completion (handleCurrentHeatingCoolingStateGet sampleMapper switchedOffRemote left false
                source_order heating_data) = Normal OFF.
Proof.
  split; [reflexivity|]. split; [apply Permutation_refl|].
  exact (proj1 (get_current_state_of_switched_off_device sampleMapper switchedOffRemote left
                  source_order heating_data eq_refl (Permutation_refl source_order))).
Defined.

(** X11. Setting the target state to the value it already has is a no-op for
    the device: after a set of a value that is a number, a second set of the
    same value sends no power command and leaves the record as it is. *)
Theorem repeated_set_target_state_sends_nothing (userIdForSide : string)
  (value : Js.number) (d : Thermostat_data) :
  (value =? value) = true ->
  let d1 := data (handleTargetHeatingCoolingStateSet userIdForSide false value d) in
  let r2 := handleTargetHeatingCoolingStateSet userIdForSide false value d1 in
  remote_calls (events r2) = [] /\ data r2 = d1.
Proof.
  intros Hval. cbv zeta.
  rewrite !handleTargetHeatingCoolingStateSet_run.
  cbn [data events set_CurrentHeatingCoolingState set_TargetHeatingCoolingState
       CurrentHeatingCoolingState CurrentTemperature TargetTemperature
       TargetHeatingCoolingState TemperatureDisplayUnits].
  unfold Js.strict_neq at 1. rewrite Hval. cbn [negb app].
  rewrite nextCurrentState_idempotent. split; reflexivity.
Qed.

Lemma repeated_set_target_state_sends_nothing_witness :
  (3 =? 3) = true /\
  remote_calls (events (handleTargetHeatingCoolingStateSet "user" false 3
                          (data (handleTargetHeatingCoolingStateSet "user" false 3
                                   initial_data)))) = [].
Proof.
  split; [reflexivity|].
  exact (proj1 (repeated_set_target_state_sends_nothing "user" 3 initial_data eq_refl)).
Defined.

(** X12. What was written is what is read back: after an accepted write of
    the target temperature, a get of the target temperature to which the
    remote device reports the level it committed returns the stored target
    temperature and leaves the record as it is. *)
Theorem set_then_get_target_temperature (tempMapper : TwoWayTempMapper)
  (remote remote' : Remote) (requested : Js.number) (d : Thermostat_data) :
  let targetLevel := celsiusToLevel tempMapper (formatCelsius tempMapper requested) in
  level_rejected targetLevel = false ->
  userTargetLevel remote' = updateUserTargetLevel remote targetLevel ->
  let d1 := data (handleTargetTemperatureSet tempMapper remote false requested d) in
  let r2 := handleTargetTemperatureGet tempMapper remote' false d1 in
  completion r2 = Normal (TargetTemperature d1) /\
  data r2 = d1 /\
  completion r2 = completion (updateTargetTemperature tempMapper remote requested d).
Proof.
  cbv zeta. intros Hacc Hsame.
  rewrite (handleTargetTemperatureSet_accepted tempMapper remote requested d Hacc).
  rewrite (updateTargetTemperature_accepted tempMapper remote requested d Hacc).
  unfold handleTargetTemperatureGet, ensureDeviceResponsiveness, fetchTargetTemp,
    fetchTargetTemp_call, fetchTargetTemp_resume.
  cbn. rewrite Hsame. repeat split; reflexivity.
Qed.

Lemma set_then_get_target_temperature_witness :
  level_rejected (celsiusToLevel sampleMapper (formatCelsius sampleMapper 20)) = false /\
  userTargetLevel settledRemote =
    updateUserTargetLevel obedientRemote
      (celsiusToLevel sampleMapper (formatCelsius sampleMapper 20)) /\
  data (handleTargetTemperatureGet sampleMapper settledRemote false data_after_set_20)
  = data_after_set_20.
Proof.
  split; [reflexivity|]. split; [reflexivity|].
  exact (proj1 (proj2 (set_then_get_target_temperature sampleMapper obedientRemote
                         settledRemote 20 initial_data eq_refl eq_refl))).
Defined.

(** X13. An accessory flagged as not responding never leaves its initial
    record: no sequence of requests changes any field. *)
Theorem unresponsive_accessory_keeps_initial_data (tempMapper : TwoWayTempMapper)
  (deviceSide : Side) (userIdForSide : string) (d : Thermostat_data) :
  reachable tempMapper deviceSide userIdForSide true d -> d = initial_data.
Proof.
  induction 1 as [|remote req d Hd IH]; [reflexivity|].
  subst d. destruct req; reflexivity.
Qed.

Lemma unresponsive_accessory_keeps_initial_data_witness :
  reachable sampleMapper left "user" true
    (data (handle sampleMapper left "user" true obedientRemote
             (TargetTemperature_onSet 20) initial_data)) /\
  data (handle sampleMapper left "user" true obedientRemote
          (TargetTemperature_onSet 20) initial_data) = initial_data.
Proof.
  assert (H : reachable sampleMapper left "user" true
                (data (handle sampleMapper left "user" true obedientRemote
                         (TargetTemperature_onSet 20) initial_data)))
    by exact (reachable_handle sampleMapper left "user" true obedientRemote
                (TargetTemperature_onSet 20) initial_data
                (reachable_initial sampleMapper left "user" true)).
  split; [exact H|].
  exact (unresponsive_accessory_keeps_initial_data sampleMapper left "user" _ H).
Defined.

(** ** The comparison of temperatures *)

Lemma SFabs_binary_round_aux (sx : bool) (mx ex : Z) (lx : location) :
  SFabs (binary_round_aux prec emax sx mx ex lx) =
  SFabs (binary_round_aux prec emax false mx ex lx).
Proof.
  unfold binary_round_aux.
  destruct (shr_fexp prec emax mx ex lx) as [mrs e'].
  destruct (shr_fexp prec emax _ e' loc_Exact) as [mrs'' e''].
  destruct (shr_m mrs''); try reflexivity.
  destruct (Z.leb e'' (emax - prec)); reflexivity.
Qed.

Lemma SFabs_binary_normalize_opp (z e : Z) :
  SFabs (binary_normalize prec emax (- z) e false) =
  SFabs (binary_normalize prec emax z e false).
Proof.
  destruct z as [|p|p]; [reflexivity| |]; cbn [Z.opp binary_normalize];
    unfold binary_round;
    destruct (shl_align p e (fexp prec emax (Z.pos (digits2_pos p) + e))) as [mz ez];
    [apply SFabs_binary_round_aux | symmetry; apply SFabs_binary_round_aux].
Qed.

Lemma SFabs_SFsub_sym (x y : spec_float) :
  SFabs (SF64sub x y) = SFabs (SF64sub y x).
Proof.
  destruct x as [sx|sx| |sx mx ex], y as [sy|sy| |sy my ey];
    try reflexivity;
    try (destruct sx; reflexivity); try (destruct sy; reflexivity);
    try (destruct sx, sy; reflexivity).
  unfold SF64sub, SFsub. rewrite (Z.min_comm ey ex).
  set (a := cond_Zopp sx (Z.pos (fst (shl_align mx ex (Z.min ex ey))))).
  set (b := cond_Zopp sy (Z.pos (fst (shl_align my ey (Z.min ex ey))))).
  replace (b - a)%Z with (- (a - b))%Z by lia.
  symmetry. apply SFabs_binary_normalize_opp.
Qed.

(** X14. [tempsAreEqual] does not depend on the order of its arguments. *)
Theorem tempsAreEqual_sym (current target : Js.number) :
  tempsAreEqual current target = tempsAreEqual target current.
Proof.
  unfold tempsAreEqual, Js.Math_abs.
  rewrite !leb_spec, !abs_spec, !sub_spec, (SFabs_SFsub_sym (Prim2SF target)).
  reflexivity.
Qed.

Lemma is_nan_Prim2SF (x : float) : is_nan x = true -> Prim2SF x = S754_nan.
Proof.
  unfold is_nan. rewrite eqb_spec. unfold SFeqb.
  destruct (Prim2SF x) as [s|s| |s m e]; try reflexivity.
  - discriminate.
  - destruct s; discriminate.
  - rewrite SFcompare_refl_finite. discriminate.
Qed.

(** No comparison of the derivation holds when one temperature is [NaN]. *)
Lemma nan_comparisons (c t : float) :
  is_nan c = true \/ is_nan t = true ->
  tempsAreEqual c t = false /\ (c <? t) = false /\ Js.gt c t = false.
Proof.
  intros H. unfold tempsAreEqual, Js.Math_abs, Js.gt.
  rewrite leb_spec, abs_spec, sub_spec, !ltb_spec.
  destruct H as [H|H]; apply is_nan_Prim2SF in H; rewrite H;
    [destruct (Prim2SF t) | destruct (Prim2SF c)]; repeat split; reflexivity.
Qed.

(** X15. When the measured or the target temperature is [NaN] and the target
    state is not OFF, [triggerCurrentHeatingCoolingStateUpdate] takes no
    branch: it keeps, pushes and returns the state that was cached before. *)
Theorem nan_temperature_keeps_cached_state (d : Thermostat_data) :
  is_nan (CurrentTemperature d) = true \/ is_nan (TargetTemperature d) = true ->
  (TargetHeatingCoolingState d =? 0) = false ->
  let r := triggerCurrentHeatingCoolingStateUpdate d in
  completion r = Normal (CurrentHeatingCoolingState d) /\
  CurrentHeatingCoolingState (data r) = CurrentHeatingCoolingState d /\
  In (UpdateCharacteristic (CurrentHeatingCoolingState d)) (events r).
Proof.
  intros Hnan Hon. cbv zeta.
  rewrite triggerCurrentHeatingCoolingStateUpdate_run.
  destruct (nan_comparisons _ _ Hnan) as (H1 & H2 & H3).
  assert (Hkeep : nextCurrentState (CurrentHeatingCoolingState d) (CurrentTemperature d)
                    (TargetTemperature d) (TargetHeatingCoolingState d)
                  = CurrentHeatingCoolingState d).
  { unfold nextCurrentState, Js.strict_eq. now rewrite H1, Hon, H2, H3. }
  rewrite Hkeep. cbn. auto.
Qed.

Lemma nan_temperature_keeps_cached_state_witness :
  (is_nan (CurrentTemperature nan_data) = true \/ is_nan (TargetTemperature nan_data) = true) /\
  (TargetHeatingCoolingState nan_data =? 0) = false /\
  completion (triggerCurrentHeatingCoolingStateUpdate nan_data) = Normal HEAT.
Proof.
  split; [left; reflexivity|]. split; [reflexivity|].
  exact (proj1 (nan_temperature_keeps_cached_state nan_data (or_introl eq_refl) eq_refl)).
Defined.

(** X16. Equal finite temperatures are within the tolerance, so a record
    whose two temperatures are the same finite number derives OFF ("Idle"),
    whatever the target state. *)
Theorem equal_temperatures_derive_off (d : Thermostat_data) :
  Js.finite (CurrentTemperature d) ->
  TargetTemperature d = CurrentTemperature d ->
  completion (triggerCurrentHeatingCoolingStateUpdate d) = Normal OFF.
Proof.
  intros Hfin Heq.
  rewrite triggerCurrentHeatingCoolingStateUpdate_run. cbn [completion].
  rewrite Heq. unfold nextCurrentState.
  assert (Hclose : tempsAreEqual (CurrentTemperature d) (CurrentTemperature d) = true).
  { unfold tempsAreEqual, Js.Math_abs.
    destruct (abs (CurrentTemperature d - CurrentTemperature d) <=? 0.55) eqn:E;
      [reflexivity|].
    pose proof (finite_not_close_not_lt_gt _ _ Hfin Hfin E) as Hgt.
    destruct (CurrentTemperature d <? CurrentTemperature d) eqn:L.
    - rewrite ltb_spec in L. unfold SFltb in L.
      destruct (finite_Prim2SF _ Hfin) as [[s Hs]|[s [m [e Hs]]]]; rewrite Hs in L.
      + discriminate L.
      + rewrite SFcompare_refl_finite in L. discriminate L.
    - discriminate (Hgt eq_refl). }
  now rewrite Hclose.
Qed.

Lemma equal_temperatures_derive_off_witness :
  Js.finite (CurrentTemperature initial_data) /\
  TargetTemperature initial_data = CurrentTemperature initial_data /\
  completion (triggerCurrentHeatingCoolingStateUpdate initial_data) = Normal OFF.
Proof.
  split; [reflexivity|]. split; [reflexivity|].
  exact (equal_temperatures_derive_off initial_data eq_refl eq_refl).
Defined.

(** * Properties of the platform *)

Section PlatformFacts.

Import Platform.

Variable generate : string -> string.











End PlatformFacts.




(** X20. At most one side is named after the owner: the left device is
    "My Bed" exactly when the client's side is [left], the right device
    exactly when it is [right], every other device is "Guest Bed", and the
    two are never both "My Bed". *)
Theorem eightSleepDevices_names (clientDevice : Platform.ClientDevice) :
  let names := map Platform.displayName (Platform.eightSleepDevices clientDevice) in
  (Platform.side clientDevice = "left"%string -> names = ["My Bed"; "Guest Bed"]%string) /\
  (Platform.side clientDevice = "right"%string -> names = ["Guest Bed"; "My Bed"]%string) /\
  (Platform.side clientDevice <> "left"%string ->
   Platform.side clientDevice <> "right"%string ->
   names = ["Guest Bed"; "Guest Bed"]%string) /\
  names <> ["My Bed"; "My Bed"]%string.
Proof.
  cbv zeta. unfold Platform.eightSleepDevices. cbn [map Platform.displayName].
  repeat split.
  - intros ->. reflexivity.
  - intros ->. reflexivity.
  - intros Hl Hr.
    apply String.eqb_neq in Hl, Hr. now rewrite Hl, Hr.
  - destruct (String.eqb (Platform.side clientDevice) "left") eqn:El;
      destruct (String.eqb (Platform.side clientDevice) "right") eqn:Er;
      try discriminate.
    apply String.eqb_eq in El, Er. rewrite El in Er. discriminate Er.
Qed.

(** * The earlier and the later derivation *)

Lemma ltb_not_eqb (x y : float) :
  (x <? y) = true \/ (y <? x) = true -> (x =? y) = false.
Proof.
  rewrite (ltb_flip x y), ltb_spec, eqb_spec. unfold SFltb, SFeqb.
  destruct (SFcompare (Prim2SF x) (Prim2SF y)) as [[ | | ]|];
    intros [H|H]; try discriminate H; reflexivity.
Qed.

(** X21. The tolerance only widens the idle band: on finite temperatures,
    whenever the later derivation gives HEAT or COOL, the earlier derivation,
    which compares the temperatures with [===], gives the same state; so the
    two differ only where the later one gives OFF. *)
Theorem legacy_derivation_agrees_outside_idle_band
  (old : CurrentHeatingCoolingStateValue) (c t m : Js.number) :
  Js.finite c -> Js.finite t ->
  nextCurrentState old c t m <> OFF ->
  Legacy.nextCurrentState old c t m = nextCurrentState old c t m.
Proof.
  intros Hc Ht Hon.
  unfold nextCurrentState, Legacy.nextCurrentState, Js.strict_eq, Js.gt in *.
  destruct (tempsAreEqual c t) eqn:Hclose; [now cbn in Hon|].
  destruct (m =? 0); [now cbn in Hon|]. cbn [orb] in *.
  unfold tempsAreEqual, Js.Math_abs in Hclose.
  destruct (c <? t) eqn:Hlt.
  - now rewrite (ltb_not_eqb c t (or_introl Hlt)).
  - pose proof (finite_not_close_not_lt_gt c t Hc Ht Hclose Hlt) as Hgt.
    now rewrite (ltb_not_eqb c t (or_intror Hgt)), Hgt.
Qed.

Lemma legacy_derivation_agrees_outside_idle_band_witness :
  Js.finite 18 /\ Js.finite 24 /\
  nextCurrentState OFF 18 24 3 <> OFF /\
  Legacy.nextCurrentState OFF 18 24 3 = HEAT.
Proof.
  assert (Hon : nextCurrentState OFF 18 24 3 <> OFF) by (vm_compute; discriminate).
  split; [reflexivity|]. split; [reflexivity|]. split; [exact Hon|].
  rewrite (legacy_derivation_agrees_outside_idle_band OFF 18 24 3 eq_refl eq_refl Hon).
  reflexivity.
Defined.

(** Inside the idle band they can differ: 20 measured and 20.3 wanted is OFF
    for the later derivation and HEAT for the earlier one. *)
Example legacy_derivation_differs_in_idle_band :
  nextCurrentState OFF 20 20.3 3 = OFF /\ Legacy.nextCurrentState OFF 20 20.3 3 = HEAT.
Proof. split; reflexivity. Qed.

(** * What a request replies and pushes *)

Lemma bind_ret_completion {A B : Type} (h : M A) (f : A -> B) (d : Thermostat_data)
  (a : A) :
  completion (h d) = Normal a ->
  completion (bind h (fun v => ret (f v)) d) = Normal (f a).
Proof. intros H. unfold bind. rewrite H. reflexivity. Qed.

(** X22. A get replies with what the record holds after it: on a responsive
    accessory the reply of each of the five get requests is the value of its
    field in the record that the call leaves. *)
Theorem get_replies_with_stored_field (tempMapper : TwoWayTempMapper) (deviceSide : Side)
  (userIdForSide : string) (remote : Remote) (req : Request) (d : Thermostat_data)
  (v : Reply) :
  let r := handle tempMapper deviceSide userIdForSide false remote req d in
  field_read req (data r) = Some v ->
  completion r = Normal v.
Proof.
  cbv zeta.
  destruct req as [schedule|value| | |value| |value| ]; try discriminate;
    unfold handle; rewrite bind_ret_data; intros Hv.
  - rewrite handleCurrentHeatingCoolingStateGet_run in Hv. cbn in Hv.
    injection Hv as <-.
    apply bind_ret_completion. now rewrite handleCurrentHeatingCoolingStateGet_run.
  - cbn in Hv. injection Hv as <-. reflexivity.
  - cbn in Hv. injection Hv as <-. reflexivity.
  - cbn in Hv. injection Hv as <-. reflexivity.
  - cbn in Hv. injection Hv as <-. reflexivity.
Qed.

Lemma get_replies_with_stored_field_witness :
  field_read CurrentTemperature_onGet
    (data (handle sampleMapper left "user" false warmedRemote CurrentTemperature_onGet
             initial_data))
  = Some (reply_number (levelToCelsius sampleMapper 40)) /\
  completion (handle sampleMapper left "user" false warmedRemote CurrentTemperature_onGet
                initial_data)
  = Normal (reply_number (levelToCelsius sampleMapper 40)).
Proof.
  split; [reflexivity|].
  exact (get_replies_with_stored_field sampleMapper left "user" warmedRemote
           CurrentTemperature_onGet initial_data _ eq_refl).
Defined.

(** X23. What is pushed is what is cached: a request whose handler recomputes
    pushes, on a responsive accessory, exactly one current state, the one
    that the record holds after the call; every other request, and every
    request on an accessory that is not responding, pushes none. *)
Theorem pushed_state_is_cached_state (tempMapper : TwoWayTempMapper) (deviceSide : Side)
  (userIdForSide : string) (isNotResponding : bool) (remote : Remote)
  (req : Request) (d : Thermostat_data) :
  let r := handle tempMapper deviceSide userIdForSide isNotResponding remote req d in
  pushed_states (events r) =
  if recomputes req && negb isNotResponding
  then [CurrentHeatingCoolingState (data r)]
  else [].
Proof.
  cbv zeta. destruct isNotResponding.
  - rewrite handle_unresponsive_events, andb_false_r. reflexivity.
  - rewrite andb_true_r.
    destruct req as [schedule|value| | |value| |value| ]; unfold handle;
      rewrite bind_ret_events, bind_ret_data; try reflexivity.
    + rewrite handleCurrentHeatingCoolingStateGet_run. reflexivity.
    + rewrite handleTargetHeatingCoolingStateSet_run, updateDeviceState_run.
      cbn [events data].
      destruct (Js.strict_neq (TargetHeatingCoolingState d) value); [|reflexivity].
      destruct (Js.strict_eq value 3); [reflexivity|].
      destruct (Js.strict_eq value 0); reflexivity.
    + destruct (level_rejected (celsiusToLevel tempMapper (formatCelsius tempMapper value))) eqn:E.
      * rewrite (handleTargetTemperatureSet_rejected tempMapper remote value d E). reflexivity.
      * rewrite (handleTargetTemperatureSet_accepted tempMapper remote value d E).
        cbn [events data]. destruct (Js.strict_neq _ _ || Js.strict_neq _ _); reflexivity.
Qed.

(** X24. The display units are a plain store: a set followed by a get
    returns the value that was set, the get changes nothing, and neither of
    them calls the remote device or touches the cached current state. *)
Theorem display_units_round_trip (value : Js.number) (d : Thermostat_data) :
  let s := handleTemperatureDisplayUnitsSet false value d in
  let g := handleTemperatureDisplayUnitsGet false (data s) in
  completion g = Normal value /\
  data g = data s /\
  remote_calls (events s ++ events g) = [] /\
  CurrentHeatingCoolingState (data g) = CurrentHeatingCoolingState d.
Proof. cbv zeta. repeat split; reflexivity. Qed.
